(** * git-sync: process enumeration, name resolution and signal dispatch

    A shallow embedding of [pkg/gopsutil/gopsutil.go] and of [SignalProcs],
    and the properties of the process-source and signal-dispatcher
    components established on it.

    Go strings and byte slices are byte sequences: they are [string]s here
    (lists of 8-bit [ascii]).  A Go function returning [(T, error)] returns
    a pair [(T * option error)]; [None] is Go's [nil] error.  Integers that
    never wrap in this code ([int32] pids produced by a range-checked parse,
    signal numbers) are [Z]. *)

From Stdlib Require Import String Ascii List ZArith Lia Bool Arith.
From Stdlib Require DecimalString DecimalPos.
Import ListNotations.

Local Open Scope string_scope.
Local Open Scope list_scope.

(** ** The parts of Go's standard library the package calls *)

Module strings.

(** [strings.Split(s, sep)] for a one-byte separator: all the pieces
    between separators, so one more piece than there are separators. *)
Fixpoint Split (s : string) (sep : ascii) : list string :=
  match s with
  | EmptyString => [EmptyString]
  | String c s' =>
      if Ascii.eqb c sep then EmptyString :: Split s' sep
      else match Split s' sep with
           | [] => [String c EmptyString]
           | piece :: pieces => String c piece :: pieces
           end
  end.

(** The text before and after the first separator, if there is one. *)
Fixpoint cut (s : string) (sep : ascii) : option (string * string) :=
  match s with
  | EmptyString => None
  | String c s' =>
      if Ascii.eqb c sep then Some (EmptyString, s')
      else match cut s' sep with
           | Some (before, after) => Some (String c before, after)
           | None => None
           end
  end.

(** [strings.SplitN(s, sep, 2)] for a one-byte separator: at most two
    pieces, the second being the unsplit remainder. *)
Definition SplitN2 (s : string) (sep : ascii) : list string :=
  match cut s sep with
  | Some (before, after) => [before; after]
  | None => [s]
  end.

Fixpoint inCutset (c : ascii) (cutset : string) : bool :=
  match cutset with
  | EmptyString => false
  | String d cutset' => Ascii.eqb c d || inCutset c cutset'
  end.

(** [strings.TrimLeft], [strings.TrimRight] and [strings.Trim] for a
    cutset of one-byte characters. *)
Fixpoint TrimLeft (s cutset : string) : string :=
  match s with
  | EmptyString => EmptyString
  | String c s' => if inCutset c cutset then TrimLeft s' cutset else s
  end.

Fixpoint TrimRight (s cutset : string) : string :=
  match s with
  | EmptyString => EmptyString
  | String c s' =>
      match TrimRight s' cutset with
      | EmptyString =>
          if inCutset c cutset then EmptyString else String c EmptyString
      | kept => String c kept
      end
  end.

Definition Trim (s cutset : string) : string :=
  TrimRight (TrimLeft s cutset) cutset.

(** [strings.HasPrefix(s, prefix)]. *)
Definition HasPrefix (s prefix : string) : bool := String.prefix prefix s.

End strings.

Module bytes.

(** [bytes.Split(b, []byte{sep})]: as [strings.Split], on a byte slice. *)
Definition Split (b : string) (sep : ascii) : list string :=
  strings.Split b sep.

End bytes.

Module filepath.

Definition Separator : ascii := "/"%char.

(** [path[i+1:]] for the last index [i] holding a separator, the whole
    path when there is none. *)
Definition lastElement (path : string) : string :=
  last (strings.Split path Separator) EmptyString.

(** [filepath.Base] on a Unix host (no volume names). *)
Definition Base (path : string) : string :=
  if String.eqb path "" then "."
  else
    let path := strings.TrimRight path "/" in
    let path := lastElement path in
    if String.eqb path "" then "/" else path.

End filepath.

Module strconv.

Inductive NumError : Type := ErrSyntax | ErrRange.

Definition isDigit (c : ascii) : bool :=
  let n := N_of_ascii c in (48 <=? n)%N && (n <=? 57)%N.

Definition digit (c : ascii) : Z := Z.of_N (N_of_ascii c) - 48.

Definition maxUint64 : Z := 2 ^ 64 - 1.

(** The digit loop of [strconv.ParseUint(s, 10, bitSize)]; [n] is a
    [uint64], so its arithmetic is taken modulo [2^64]. *)
Fixpoint ParseUint_loop (s : string) (cutoff maxVal n : Z)
  : Z * option NumError :=
  match s with
  | EmptyString => (n, None)
  | String c s' =>
      if isDigit c then
        let d := digit c in
        if (cutoff <=? n)%Z then (maxVal, Some ErrRange)
        else
          let n := ((n * 10) mod 2 ^ 64)%Z in
          let n1 := ((n + d) mod 2 ^ 64)%Z in
          if (n1 <? n)%Z || (maxVal <? n1)%Z then (maxVal, Some ErrRange)
          else ParseUint_loop s' cutoff maxVal n1
      else (0%Z, Some ErrSyntax)
  end.

Definition ParseUint10 (s : string) (bitSize : Z) : Z * option NumError :=
  if String.eqb s "" then (0%Z, Some ErrSyntax)
  else
    let cutoff := (maxUint64 / 10 + 1)%Z in
    let maxVal := (2 ^ bitSize - 1)%Z in
    ParseUint_loop s cutoff maxVal 0%Z.

(** [strconv.ParseInt(s, 10, bitSize)]: an optional sign, then
    [ParseUint], then the signed range check. *)
Definition ParseInt10 (s : string) (bitSize : Z) : Z * option NumError :=
  match s with
  | EmptyString => (0%Z, Some ErrSyntax)
  | String c0 rest =>
      let neg := Ascii.eqb c0 "-" in
      let s := if Ascii.eqb c0 "+" || neg then rest else s in
      let '(un, err) := ParseUint10 s bitSize in
      match err with
      | Some ErrSyntax => (0%Z, Some ErrSyntax)
      | _ =>
          let cutoff := (2 ^ (bitSize - 1))%Z in
          if negb neg && (cutoff <=? un)%Z then
            ((cutoff - 1)%Z, Some ErrRange)
          else if neg && (cutoff <? un)%Z then
            ((- cutoff)%Z, Some ErrRange)
          else (if neg then (- un)%Z else un, None)
      end
  end.

(** [strconv.Itoa]: the decimal text of an integer. *)
Definition Itoa (i : Z) : string :=
  DecimalString.NilZero.string_of_int (Z.to_int i).

End strconv.

(** Bytes of the record formats. *)
Definition TAB : string := String "009" "".
Definition LF : string := String "010" "".
Definition NULs : string := String "000" "".
Definition spaceTab : string := String " " (String "009" "").

(** ** The host: operating system and runtime services

    Everything the package obtains from outside itself.  A host is a
    snapshot: the same request gets the same answer during one call. *)

Inductive error : Type := IOError (msg : string).

Record Host : Type := {
  (** [os.Getenv] *)
  Getenv : string -> string;
  (** [filepath.Join] *)
  Join : list string -> string;
  (** [ioutil.ReadFile] *)
  ReadFile : string -> string * option error;
  (** [os.Open] on a directory *)
  Open : string -> option error;
  (** [Readdirnames(-1)] on the opened directory *)
  Readdirnames : string -> list string * option error;
  (** [os.FindProcess] *)
  FindProcess : Z -> option error;
  (** [Signal] on the process found *)
  Signal : Z -> Z -> option error
}.

(** What a call does to the outside world, in order. *)
Inductive event : Type :=
| EvOpen (path : string)
| EvReaddirnames (path : string)
| EvReadFile (path : string)
| EvFindProcess (pid : Z)
| EvSignal (pid sig : Z).

(** A computation yields its result and the events it performed. *)
Definition IO (A : Type) : Type := (A * list event)%type.

Definition ret {A} (a : A) : IO A := (a, []).

Definition bind {A B} (m : IO A) (k : A -> IO B) : IO B :=
  let '(a, evs1) := m in
  let '(b, evs2) := k a in
  (b, evs1 ++ evs2).

Definition perform {A} (ev : event) (a : A) : IO A := (a, [ev]).

Declare Scope io_scope.
Delimit Scope io_scope with io.
Notation "x <- m ;; k" := (bind m (fun x => k))
  (at level 61, m at next level, right associativity) : io_scope.
Notation "' pat <- m ;; k" := (bind m (fun x => match x with pat => k end))
  (at level 61, pat pattern, m at next level, right associativity) : io_scope.
Local Open Scope io_scope.

(** ** [package gopsutil] *)

(** [type Process struct { Pid int32; name string }] *)
Record Process : Type := mkProcess { Pid : Z; name : string }.

Definition setName (p : Process) (n : string) : Process :=
  {| Pid := Pid p; name := n |}.

Section Gopsutil.

Variable host : Host.

Definition getEnv (key dfault : string) (combineWith : list string)
  : string :=
  let value := Getenv host key in
  let value := if String.eqb value "" then dfault else value in
  match combineWith with
  | [] => value
  | [c] => Join host [value; c]
  | _ => Join host (value :: combineWith)
  end.

Definition hostProc (combineWith : list string) : string :=
  getEnv "HOST_PROC" "/proc" combineWith.

(** The loop of [readPidsFromDir] over the directory's entry names.  The
    conversion [int32(pid)] leaves a value [ParseInt] accepted at 32 bits
    as it is. *)
Fixpoint readPids_loop (fnames : list string) (ret : list Z) : list Z :=
  match fnames with
  | [] => ret
  | fname :: fnames' =>
      let '(pid, err) := strconv.ParseInt10 fname 32 in
      match err with
      | Some _ => readPids_loop fnames' ret
      | None => readPids_loop fnames' (ret ++ [pid])
      end
  end.

(** [readPidsFromDir]; the deferred [d.Close()] has no part in the result
    and is left out. *)
Definition readPidsFromDir (path : string) : IO (list Z * option error) :=
  err <- perform (EvOpen path) (Open host path) ;;
  match err with
  | Some e => ret ([], Some e)
  | None =>
      '(fnames, err) <-
        perform (EvReaddirnames path) (Readdirnames host path) ;;
      match err with
      | Some e => ret ([], Some e)
      | None => ret (readPids_loop fnames [], None)
      end
  end.

Definition pidsWithContext : IO (list Z * option error) :=
  readPidsFromDir (hostProc []).

(** [Processes] and [ProcessesWithContext]: one fresh handle per pid. *)
Definition ProcessesWithContext : IO (list Process * option error) :=
  '(pids, err) <- pidsWithContext ;;
  match err with
  | Some e => ret ([], Some e)
  | None => ret (map (fun pid => {| Pid := pid; name := "" |}) pids, None)
  end.

Definition Processes : IO (list Process * option error) :=
  ProcessesWithContext.

(** [SendSignal] and [SendSignalWithContext]. *)
Definition SendSignalWithContext (p : Process) (sig : Z)
  : IO (option error) :=
  err <- perform (EvFindProcess (Pid p)) (FindProcess host (Pid p)) ;;
  match err with
  | Some e => ret (Some e)
  | None =>
      err <- perform (EvSignal (Pid p) sig) (Signal host (Pid p) sig) ;;
      match err with
      | Some e => ret (Some e)
      | None => ret None
      end
  end.

Definition SendSignal (p : Process) (sig : Z) : IO (option error) :=
  SendSignalWithContext p sig.

(** [fillSliceFromCmdlineWithContext], [CmdlineSliceWithContext] and
    [CmdlineSlice]. *)
Definition NUL : ascii := "000"%char.

Fixpoint lastByte (b : string) : option ascii :=
  match b with
  | EmptyString => None
  | String c EmptyString => Some c
  | String _ b' => lastByte b'
  end.

Fixpoint dropLast (b : string) : string :=
  match b with
  | EmptyString => EmptyString
  | String _ EmptyString => EmptyString
  | String c b' => String c (dropLast b')
  end.

Definition fillSliceFromCmdlineWithContext (p : Process)
  : IO (list string * option error) :=
  let pid := Pid p in
  let cmdPath := hostProc [strconv.Itoa pid; "cmdline"] in
  '(cmdline, err) <- perform (EvReadFile cmdPath) (ReadFile host cmdPath) ;;
  match err with
  | Some e => ret ([], Some e)
  | None =>
      if (String.length cmdline =? 0)%nat then ret ([], None)
      else
        let cmdline :=
          match lastByte cmdline with
          | Some c => if Ascii.eqb c NUL then dropLast cmdline else cmdline
          | None => cmdline
          end in
        let parts := bytes.Split cmdline NUL in
        ret (parts, None)
  end.

Definition CmdlineSliceWithContext (p : Process)
  : IO (list string * option error) :=
  fillSliceFromCmdlineWithContext p.

Definition CmdlineSlice (p : Process) : IO (list string * option error) :=
  CmdlineSliceWithContext p.

(** The [for _, line := range lines] loop of [NameWithContext].  The
    first component of the result is the error of an early [return]. *)
Fixpoint Name_loop (lines : list string) (p : Process)
  : IO (option error * Process) :=
  match lines with
  | [] => ret (None, p)
  | line :: lines' =>
      let tabParts := strings.SplitN2 line "009" in
      if (List.length tabParts <? 2)%nat then Name_loop lines' p
      else
        let value := nth 1 tabParts "" in
        if String.eqb (strings.TrimRight (nth 0 tabParts "") ":") "Name"
        then
          let p := setName p (strings.Trim value spaceTab) in
          if (15 <=? String.length (name p))%nat then
            '(cmdlineSlice, err) <- CmdlineSlice p ;;
            match err with
            | Some e => ret (Some e, p)
            | None =>
                if (0 <? List.length cmdlineSlice)%nat then
                  let extendedName :=
                    filepath.Base (nth 0 cmdlineSlice "") in
                  if strings.HasPrefix extendedName (name p) then
                    Name_loop lines' (setName p extendedName)
                  else
                    Name_loop lines' (setName p (nth 0 cmdlineSlice ""))
                else Name_loop lines' p
            end
          else Name_loop lines' p
        else Name_loop lines' p
  end.

(** [NameWithContext] and [Name]: the name, the error, and the handle as
    the call leaves it. *)
Definition NameWithContext (p : Process)
  : IO (string * option error * Process) :=
  if String.eqb (name p) "" then
    let pid := Pid p in
    let statPath := hostProc [strconv.Itoa pid; "status"] in
    '(contents, err) <-
      perform (EvReadFile statPath) (ReadFile host statPath) ;;
    match err with
    | Some e => ret ("", Some e, p)
    | None =>
        let lines := strings.Split contents "010" in
        '(early, p) <- Name_loop lines p ;;
        match early with
        | Some e => ret ("", Some e, p)
        | None => ret (name p, None, p)
        end
    end
  else ret (name p, None, p).

Definition Name (p : Process) : IO (string * option error * Process) :=
  NameWithContext p.

(** ** [SignalProcs] *)

(** The [for idx := range procs] loop. *)
Fixpoint SignalProcs_loop (procs : list Process) (flProcName : string)
  (flProcSignal : Z) : IO (option error) :=
  match procs with
  | [] => ret None
  | p :: procs' =>
      '(name, _, p) <- Name p ;;
      if String.eqb name flProcName then
        err <- SendSignal p flProcSignal ;;
        match err with
        | Some e => ret (Some e)
        | None => SignalProcs_loop procs' flProcName flProcSignal
        end
      else SignalProcs_loop procs' flProcName flProcSignal
  end.

Definition SignalProcs (flProcName : string) (flProcSignal : Z)
  : IO (option error) :=
  '(procs, err) <- Processes ;;
  match err with
  | Some e => ret (Some e)
  | None => SignalProcs_loop procs flProcName flProcSignal
  end.

End Gopsutil.

(** ** What [SignalProcs] sees of one enumerated process *)

(** The handle [ProcessesWithContext] creates for a pid. *)
Definition fresh (pid : Z) : Process := {| Pid := pid; name := "" |}.

(** The paths of a process's two records. *)
Definition statusPath (host : Host) (pid : Z) : string :=
  hostProc host [strconv.Itoa pid; "status"].

Definition cmdlinePath (host : Host) (pid : Z) : string :=
  hostProc host [strconv.Itoa pid; "cmdline"].

(** The string, the error and the events of [Name] on a fresh handle. *)
Definition resolvedName (host : Host) (pid : Z) : string :=
  fst (fst (fst (Name host (fresh pid)))).

Definition resolveError (host : Host) (pid : Z) : option error :=
  snd (fst (fst (Name host (fresh pid)))).

Definition resolveEvents (host : Host) (pid : Z) : list event :=
  snd (Name host (fresh pid)).

(** The error and the events of [SendSignal]. *)
Definition deliver (host : Host) (pid sig : Z) : option error :=
  fst (SendSignal host (fresh pid) sig).

Definition deliverEvents (host : Host) (pid sig : Z) : list event :=
  snd (SendSignal host (fresh pid) sig).

(** The events of one iteration of the dispatch loop. *)
Definition visit (host : Host) (target : string) (sig pid : Z)
  : list event :=
  resolveEvents host pid ++
  (if String.eqb (resolvedName host pid) target
   then deliverEvents host pid sig else []).

(** The events that are part of a signal delivery. *)
Definition isDelivery (ev : event) : bool :=
  match ev with
  | EvFindProcess _ | EvSignal _ _ => true
  | _ => false
  end.

(** The pids a delivery was started for, in order. *)
Fixpoint attempts (evs : list event) : list Z :=
  match evs with
  | [] => []
  | EvFindProcess pid :: evs' => pid :: attempts evs'
  | _ :: evs' => attempts evs'
  end.

(** Whether the dispatch loop takes a process for the target. *)
Definition isMatch (host : Host) (target : string) (pid : Z) : bool :=
  String.eqb (resolvedName host pid) target.

(** The pids of a list up to and including the first whose delivery
    fails. *)
Fixpoint untilFailure (host : Host) (sig : Z) (pids : list Z) : list Z :=
  match pids with
  | [] => []
  | pid :: pids' =>
      pid :: match deliver host pid sig with
             | Some _ => []
             | None => untilFailure host sig pids'
             end
  end.

(** ** Record syntax *)

(** The value of a status line keyed [Name], as [Name_loop] reads it: the
    text after the first tab of a line whose text before that tab is [Name]
    followed by any number of colons. *)
Definition nameEntry (line : string) : option string :=
  match strings.cut line "009" with
  | Some (key, value) =>
      if String.eqb (strings.TrimRight key ":") "Name" then Some value
      else None
  | None => None
  end.

(** The values of all the lines keyed [Name], in order. *)
Fixpoint nameEntries (lines : list string) : list string :=
  match lines with
  | [] => []
  | line :: lines' =>
      match nameEntry line with
      | Some value => value :: nameEntries lines'
      | None => nameEntries lines'
      end
  end.

(** The candidate name a [Name] value yields. *)
Definition candidate (value : string) : string :=
  strings.Trim value spaceTab.

(** The name [Name_loop] settles on for a candidate of 15 bytes or more,
    given the arguments of the command line. *)
Definition adopt (candidateName : string) (cmdlineSlice : list string)
  : string :=
  if (0 <? List.length cmdlineSlice)%nat then
    let extendedName := filepath.Base (nth 0 cmdlineSlice "") in
    if strings.HasPrefix extendedName candidateName then extendedName
    else nth 0 cmdlineSlice ""
  else candidateName.

(** ** Fixture hosts

    A process directory with the given entry names and files; a file that
    is not listed cannot be read, and signalling a pid in [refused] fails. *)

Fixpoint lookupFile (path : string) (files : list (string * string))
  : option string :=
  match files with
  | [] => None
  | (p, contents) :: files' =>
      if String.eqb p path then Some contents else lookupFile path files'
  end.

Definition ENOENT : error := IOError "no such file or directory".
Definition EPERM : error := IOError "operation not permitted".

Definition fixture (entries : list string) (files : list (string * string))
  (refused : list Z) : Host :=
  {| Getenv := fun _ => "";
     Join := fun elems => String.concat "/" elems;
     ReadFile := fun path =>
       match lookupFile path files with
       | Some contents => (contents, None)
       | None => ("", Some ENOENT)
       end;
     Open := fun path => if String.eqb path "/proc" then None else Some ENOENT;
     Readdirnames := fun _ => (entries, None);
     FindProcess := fun _ => None;
     Signal := fun pid _ =>
       if existsb (Z.eqb pid) refused then Some EPERM else None |}.

Definition statusOf (processName : string) : string :=
  ("Name:" ++ TAB ++ processName ++ LF ++
   "Umask:" ++ TAB ++ "0022" ++ LF ++
   "State:" ++ TAB ++ "S (sleeping)" ++ LF)%string.

(** The fixtures the properties are tried on. *)
Definition longName : string := "averylongprocessname".

Definition fxShort : Host :=
  fixture ["7"] [("/proc/7/status", statusOf "short")] [].

Definition fxExtended : Host :=
  fixture ["7"]
    [("/proc/7/status", statusOf longName);
     ("/proc/7/cmdline",
       ("/usr/bin/averylongprocessname-extended" ++ NULs ++
        "--flag" ++ NULs)%string)] [].

Definition fxEmptyCmdline : Host :=
  fixture ["7"]
    [("/proc/7/status", statusOf longName); ("/proc/7/cmdline", "")] [].

Definition fxUnreadableCmdline : Host :=
  fixture ["7"] [("/proc/7/status", statusOf longName)] [].

Definition fxEmptyName : Host :=
  fixture ["7"] [("/proc/7/status", statusOf "")] [].

(** Process 1 is listed but its records are gone. *)
Definition fxVanished : Host :=
  fixture ["1"; "2"] [("/proc/2/status", statusOf "sleep")] [].

(** Four processes, three of them named [sleep]; signalling the third one
    is refused. *)
Definition fxRefused : Host :=
  fixture ["1"; "2"; "3"; "4"]
    [("/proc/1/status", statusOf "sleep");
     ("/proc/2/status", statusOf "init");
     ("/proc/3/status", statusOf "sleep");
     ("/proc/4/status", statusOf "sleep")] [3%Z].

Definition fxEntries : Host :=
  fixture ["1"; "-5"; "2147483648"; "self"] [] [].

(** [n] successive calls of [Name] on one handle: what each call returned,
    and the handle as the last call leaves it. *)
Fixpoint Name_repeat (host : Host) (n : nat) (p : Process)
  : IO (list (string * option error) * Process) :=
  match n with
  | O => ret ([], p)
  | S n' =>
      '(name, err, p) <- Name host p ;;
      '(results, p) <- Name_repeat host n' p ;;
      ret ((name, err) :: results, p)
  end.

(** ** Directory entry names as numbers *)

Fixpoint allDigits (s : string) : bool :=
  match s with
  | EmptyString => true
  | String c s' => strconv.isDigit c && allDigits s'
  end.

(** The number whose decimal digits are those of [acc] followed by [s]. *)
Fixpoint decimalFrom (s : string) (acc : Z) : Z :=
  match s with
  | EmptyString => acc
  | String c s' => decimalFrom s' (acc * 10 + strconv.digit c)%Z
  end.

Definition decimalValue (s : string) : Z := decimalFrom s 0.

(** A valid non-negative base-10 integer: one or more decimal digits. *)
Definition isNonNegDecimal (s : string) : bool :=
  negb (String.eqb s "") && allDigits s.

(** An optional sign followed by one or more decimal digits. *)
Definition signedDecimal (s : string) : option Z :=
  match s with
  | EmptyString => None
  | String c rest =>
      if Ascii.eqb c "+" then
        if isNonNegDecimal rest then Some (decimalValue rest) else None
      else if Ascii.eqb c "-" then
        if isNonNegDecimal rest then Some (- decimalValue rest)%Z else None
      else
        if isNonNegDecimal s then Some (decimalValue s) else None
  end.

(** The pid an entry name stands for: a signed decimal that fits [int32]. *)
Definition pidOfEntry (fname : string) : option Z :=
  match signedDecimal fname with
  | Some z =>
      if ((- 2 ^ 31 <=? z) && (z <? 2 ^ 31))%Z then Some z else None
  | None => None
  end.

Definition isPidEntry (fname : string) : bool :=
  match pidOfEntry fname with Some _ => true | None => false end.

Fixpoint pidsOfEntries (fnames : list string) : list Z :=
  match fnames with
  | [] => []
  | fname :: fnames' =>
      match pidOfEntry fname with
      | Some pid => pid :: pidsOfEntries fnames'
      | None => pidsOfEntries fnames'
      end
  end.

(** ** Further record syntax and fixtures *)

(** The cmdline record as [fillSliceFromCmdlineWithContext] splits it: one
    NUL at the end, if there is one, taken off. *)
Definition stripTrailingNUL (cmdline : string) : string :=
  match lastByte cmdline with
  | Some c => if Ascii.eqb c NUL then dropLast cmdline else cmdline
  | None => cmdline
  end.

Fixpoint containsByte (c : ascii) (s : string) : bool :=
  match s with
  | EmptyString => false
  | String d s' => Ascii.eqb d c || containsByte c s'
  end.

(** The number whose decimal digits are those of [acc] followed by the
    digits of [d]. *)
Fixpoint uintValue (d : Decimal.uint) (acc : Z) : Z :=
  match d with
  | Decimal.Nil => acc
  | Decimal.D0 d => uintValue d (acc * 10 + 0)%Z
  | Decimal.D1 d => uintValue d (acc * 10 + 1)%Z
  | Decimal.D2 d => uintValue d (acc * 10 + 2)%Z
  | Decimal.D3 d => uintValue d (acc * 10 + 3)%Z
  | Decimal.D4 d => uintValue d (acc * 10 + 4)%Z
  | Decimal.D5 d => uintValue d (acc * 10 + 5)%Z
  | Decimal.D6 d => uintValue d (acc * 10 + 6)%Z
  | Decimal.D7 d => uintValue d (acc * 10 + 7)%Z
  | Decimal.D8 d => uintValue d (acc * 10 + 8)%Z
  | Decimal.D9 d => uintValue d (acc * 10 + 9)%Z
  end.

(** A [Name] value whose candidate is below the length at which the
    cmdline record is consulted. *)
Definition isShort (value : string) : Prop :=
  (String.length (candidate value) < 15)%nat.

(** Whether a pid fits [int32]. *)
Definition inInt32 (z : Z) : Prop :=
  (-2147483648 <= z <= 2147483647)%Z.

(** The events of a delivery that succeeds. *)
Definition delivered (sig pid : Z) : list event :=
  [EvFindProcess pid; EvSignal pid sig].

(** A host whose process directory cannot be opened. *)
Definition fxNoProc : Host :=
  {| Getenv := fun _ => "";
     Join := fun elems => String.concat "/" elems;
     ReadFile := fun _ => ("", Some ENOENT);
     Open := fun _ => Some ENOENT;
     Readdirnames := fun _ => ([], None);
     FindProcess := fun _ => None;
     Signal := fun _ _ => None |}.

(** A host whose process directory opens but cannot be listed to the
    end. *)
Definition fxUnlistable : Host :=
  {| Getenv := fun _ => "";
     Join := fun elems => String.concat "/" elems;
     ReadFile := fun _ => ("", Some ENOENT);
     Open := fun _ => None;
     Readdirnames := fun _ => (["1"], Some EPERM);
     FindProcess := fun _ => None;
     Signal := fun _ _ => None |}.

(** A status record whose first line keyed [Name] is short and whose
    second one is not, with a command line. *)
Definition fxShortThenLong : Host :=
  fixture ["7"]
    [("/proc/7/status",
       ("Name:" ++ TAB ++ "first" ++ LF ++
        "Name:" ++ TAB ++ longName ++ LF)%string);
     ("/proc/7/cmdline", ("/opt/tool/run.sh" ++ NULs)%string)] [].

(** A status record with two lines keyed [Name]. *)
Definition fxTwoNames : Host :=
  fixture ["7"]
    [("/proc/7/status",
       ("Name:" ++ TAB ++ "first" ++ LF ++
        "Name:" ++ TAB ++ " second " ++ LF)%string)] [].

(** A directory in which three entries stand for the pid 7. *)
Definition fxAliases : Host :=
  fixture ["7"; "+7"; "007"; "cpuinfo"] [] [].

(** Three processes, two of them named [sleep]; no delivery is refused. *)
Definition fxSleepers : Host :=
  fixture ["1"; "42"; "4711"]
    [("/proc/1/status", statusOf "sleep");
     ("/proc/42/status", statusOf "init");
     ("/proc/4711/status", statusOf "sleep")] [].

(** * Properties *)

(** ** The library functions on examples *)

Example Split_lines :
  strings.Split ("a" ++ String "010" ("" ++ String "010" "b")) "010"
  = ["a"; ""; "b"].
Proof. reflexivity. Qed.

Example Split_empty : strings.Split "" "010" = [""].
Proof. reflexivity. Qed.

Example Trim_spaces : strings.Trim "  sh ort  " " " = "sh ort".
Proof. reflexivity. Qed.

Example TrimRight_colons : strings.TrimRight "Name::" ":" = "Name".
Proof. reflexivity. Qed.

Example Base_path : filepath.Base "/usr/bin/tool/" = "tool".
Proof. reflexivity. Qed.

Example Base_slashes : filepath.Base "///" = "/".
Proof. reflexivity. Qed.

Example Base_empty : filepath.Base "" = ".".
Proof. reflexivity. Qed.

Example ParseInt_plain : strconv.ParseInt10 "1234" 32 = (1234%Z, None).
Proof. reflexivity. Qed.

Example ParseInt_letters :
  strconv.ParseInt10 "self" 32 = (0%Z, Some strconv.ErrSyntax).
Proof. reflexivity. Qed.

Example ParseInt_minimum :
  strconv.ParseInt10 "-2147483648" 32 = ((-2147483648)%Z, None).
Proof. reflexivity. Qed.

Example ParseInt_too_big :
  strconv.ParseInt10 "2147483648" 32 = (2147483647%Z, Some strconv.ErrRange).
Proof. reflexivity. Qed.

Example Itoa_pid : strconv.Itoa 4711 = "4711".
Proof. reflexivity. Qed.

(** ** The package on fixtures *)

Example Name_short :
  Name (fixture ["7"] [("/proc/7/status", statusOf "sleep")] []) (fresh 7)
  = ("sleep", None, mkProcess 7 "sleep", [EvReadFile "/proc/7/status"]).
Proof. reflexivity. Qed.

Example Name_extended :
  fst (Name (fixture ["7"]
               [("/proc/7/status", statusOf "averylongprocessname");
                ("/proc/7/cmdline",
                  ("/usr/bin/averylongprocessname-extended" ++ NULs ++
                   "--flag" ++ NULs)%string)] [])
         (fresh 7))
  = ("averylongprocessname-extended", None,
      mkProcess 7 "averylongprocessname-extended").
Proof. reflexivity. Qed.

Example Name_unrelated_cmdline :
  fst (Name (fixture ["7"]
               [("/proc/7/status", statusOf "averylongprocessname");
                ("/proc/7/cmdline", ("/opt/tool/run.sh" ++ NULs)%string)] [])
         (fresh 7))
  = ("/opt/tool/run.sh", None, mkProcess 7 "/opt/tool/run.sh").
Proof. reflexivity. Qed.

(** With several lines keyed [Name] the last one decides. *)
Example Name_two_entries :
  fst (Name (fixture ["7"]
               [("/proc/7/status",
                  ("Name:" ++ TAB ++ "first" ++ LF ++
                   "Name:" ++ TAB ++ "second" ++ LF)%string)] [])
         (fresh 7))
  = ("second", None, mkProcess 7 "second").
Proof. reflexivity. Qed.

(** After a failed read of the cmdline record the next call answers from
    the handle. *)
Example Name_after_cmdline_error :
  Name_repeat fxUnreadableCmdline 2 (fresh 7)
  = ([("", Some ENOENT); (longName, None)], mkProcess 7 longName,
      [EvReadFile "/proc/7/status"; EvReadFile "/proc/7/cmdline"]).
Proof. reflexivity. Qed.

Example SignalProcs_two_matches :
  SignalProcs (fixture ["1"; "self"; "2"; "3"]
                 [("/proc/1/status", statusOf "sleep");
                  ("/proc/2/status", statusOf "init");
                  ("/proc/3/status", statusOf "sleep")] [])
    "sleep" 15
  = (None,
      [EvOpen "/proc"; EvReaddirnames "/proc";
       EvReadFile "/proc/1/status"; EvFindProcess 1; EvSignal 1 15;
       EvReadFile "/proc/2/status";
       EvReadFile "/proc/3/status"; EvFindProcess 3; EvSignal 3 15]).
Proof. reflexivity. Qed.

#[local] Arguments Nat.leb : simpl nomatch.
#[local] Arguments Nat.ltb : simpl nomatch.
#[local] Arguments Nat.eqb : simpl nomatch.

(** ** Trimming never lengthens *)

Lemma TrimLeft_length (s cutset : string) :
  (String.length (strings.TrimLeft s cutset) <= String.length s)%nat.
Proof.
  induction s as [|c s IH]; simpl; [lia|].
  destruct (strings.inCutset c cutset); simpl; lia.
Qed.

Lemma TrimRight_length (s cutset : string) :
  (String.length (strings.TrimRight s cutset) <= String.length s)%nat.
Proof.
  induction s as [|c s IH]; simpl; [lia|].
  destruct (strings.TrimRight s cutset) as [|c' kept] eqn:E.
  - destruct (strings.inCutset c cutset); simpl; lia.
  - simpl in *. lia.
Qed.

Lemma candidate_length (value : string) :
  (String.length (candidate value) <= String.length value)%nat.
Proof.
  unfold candidate, strings.Trim.
  etransitivity; [apply TrimRight_length | apply TrimLeft_length].
Qed.

(** ** The line loop of [NameWithContext] *)

Section NameLoop.

Variable host : Host.

Lemma CmdlineSlice_setName (p : Process) (n : string) :
  CmdlineSlice host (setName p n) = CmdlineSlice host p.
Proof. reflexivity. Qed.

Lemma CmdlineSlice_events (p : Process) :
  snd (CmdlineSlice host p) = [EvReadFile (cmdlinePath host (Pid p))].
Proof.
  unfold CmdlineSlice, CmdlineSliceWithContext,
    fillSliceFromCmdlineWithContext, cmdlinePath, bind,
    perform.
  destruct (ReadFile host _) as [cmdline [e|]]; simpl; [reflexivity|].
  destruct (String.length cmdline =? 0)%nat; reflexivity.
Qed.

(** A line that is not keyed [Name] is passed over. *)
Lemma Name_loop_skip (line : string) (lines : list string) (p : Process) :
  nameEntry line = None ->
  Name_loop host (line :: lines) p = Name_loop host lines p.
Proof.
  unfold nameEntry. simpl. unfold strings.SplitN2.
  destruct (strings.cut line "009") as [[key value]|]; simpl;
    [|reflexivity].
  destruct (String.eqb (strings.TrimRight key ":") "Name");
    [discriminate | reflexivity].
Qed.

Lemma Name_loop_no_entries (lines : list string) (p : Process) :
  nameEntries lines = [] -> Name_loop host lines p = ret (None, p).
Proof.
  induction lines as [|line lines IH]; intros H; [reflexivity|].
  simpl in H. destruct (nameEntry line) eqn:E; [discriminate|].
  rewrite Name_loop_skip by assumption. auto.
Qed.

(** What a line keyed [Name] does. *)
Lemma Name_loop_entry (line value : string) (lines : list string)
  (p : Process) :
  nameEntry line = Some value ->
  Name_loop host (line :: lines) p =
  let p1 := setName p (candidate value) in
  if (15 <=? String.length (candidate value))%nat then
    '(cmdlineSlice, err) <- CmdlineSlice host p ;;
    match err with
    | Some e => ret (Some e, p1)
    | None =>
        Name_loop host lines (setName p (adopt (candidate value) cmdlineSlice))
    end
  else Name_loop host lines p1.
Proof.
  unfold nameEntry. simpl. unfold strings.SplitN2.
  destruct (strings.cut line "009") as [[key v]|]; simpl; [|discriminate].
  destruct (String.eqb (strings.TrimRight key ":") "Name"); [|discriminate].
  intros [= ->]. fold (candidate value).
  destruct (15 <=? String.length (candidate value))%nat; [|reflexivity].
  rewrite CmdlineSlice_setName. unfold bind.
  destruct (CmdlineSlice host p) as [[cmdlineSlice [e|]] evs];
    [reflexivity|].
  unfold adopt.
  destruct (0 <? List.length cmdlineSlice)%nat; [|reflexivity].
  destruct (strings.HasPrefix _ _); reflexivity.
Qed.

(** The loop on a record with exactly one line keyed [Name]. *)
Lemma Name_loop_single (lines : list string) (value : string) (p : Process) :
  nameEntries lines = [value] ->
  Name_loop host lines p =
  let p1 := setName p (candidate value) in
  if (15 <=? String.length (candidate value))%nat then
    '(cmdlineSlice, err) <- CmdlineSlice host p ;;
    match err with
    | Some e => ret (Some e, p1)
    | None => ret (None, setName p (adopt (candidate value) cmdlineSlice))
    end
  else ret (None, p1).
Proof.
  induction lines as [|line lines IH]; intros H; [discriminate|].
  simpl in H. destruct (nameEntry line) as [v|] eqn:E.
  - injection H as -> Hrest.
    rewrite (Name_loop_entry _ _ _ _ E). cbv zeta.
    destruct (15 <=? String.length (candidate value))%nat.
    + unfold bind.
      destruct (CmdlineSlice host p) as [[cmdlineSlice [e|]] evs];
        [reflexivity|].
      rewrite Name_loop_no_entries by assumption. reflexivity.
    + apply Name_loop_no_entries; assumption.
  - rewrite Name_loop_skip by assumption. auto.
Qed.

End NameLoop.

(** ** [Name] on one handle *)

Section NameProperties.

Variable host : Host.

(** A handle with a cached name answers from the cache. *)
Lemma Name_cached (p : Process) :
  name p <> "" -> Name host p = (name p, None, p, []).
Proof.
  intros H. unfold Name, NameWithContext.
  destruct (String.eqb_spec (name p) ""); [contradiction | reflexivity].
Qed.

Lemma Name_repeat_cached (k : nat) (p : Process) :
  name p <> "" ->
  Name_repeat host k p = (repeat (name p, None) k, p, []).
Proof.
  intros H. induction k as [|k IH]; [reflexivity|].
  cbn [Name_repeat repeat]. rewrite Name_cached by assumption.
  unfold bind. rewrite IH. reflexivity.
Qed.

(** A successful call leaves the name it returns in the handle. *)
Lemma Name_success_stored (p p1 : Process) (n : string) (evs : list event) :
  Name host p = (n, None, p1, evs) -> name p1 = n.
Proof.
  unfold Name, NameWithContext, bind, perform.
  destruct (String.eqb (name p) "").
  - destruct (ReadFile host _) as [contents [e|]]; [discriminate|].
    destruct (Name_loop host _ p) as [[[e|] p'] evs'];
      [discriminate|].
    simpl. intros [= <- <- _]. reflexivity.
  - simpl. intros [= <- <- _]. reflexivity.
Qed.

(** [Name] on an unresolved handle whose status record has exactly one
    line keyed [Name]. *)
Lemma Name_single (p : Process) (contents value : string) :
  name p = "" ->
  ReadFile host (statusPath host (Pid p)) = (contents, None) ->
  nameEntries (strings.Split contents "010") = [value] ->
  Name host p =
  if (15 <=? String.length (candidate value))%nat then
    match fst (CmdlineSlice host p) with
    | (_, Some e) =>
        ("", Some e, setName p (candidate value),
          [EvReadFile (statusPath host (Pid p));
           EvReadFile (cmdlinePath host (Pid p))])
    | (cmdlineSlice, None) =>
        (adopt (candidate value) cmdlineSlice, None,
          setName p (adopt (candidate value) cmdlineSlice),
          [EvReadFile (statusPath host (Pid p));
           EvReadFile (cmdlinePath host (Pid p))])
    end
  else
    (candidate value, None, setName p (candidate value),
      [EvReadFile (statusPath host (Pid p))]).
Proof.
  intros Hfresh Hread Hentries.
  unfold Name, NameWithContext. rewrite Hfresh. cbn [String.eqb].
  fold (statusPath host (Pid p)). unfold bind at 1, perform.
  rewrite Hread. rewrite (Name_loop_single host _ _ _ Hentries). cbv zeta.
  destruct (15 <=? String.length (candidate value))%nat; [|reflexivity].
  pose proof (CmdlineSlice_events host p) as Hevs. unfold bind.
  destruct (CmdlineSlice host p) as [[cmdlineSlice [e|]] evs];
    simpl in Hevs; subst evs; reflexivity.
Qed.

End NameProperties.

(** The case of a status record with exactly one line keyed [Name] (the
    key is the text before the first tab, with its trailing colons
    stripped): when its value [short] has fewer than 15 bytes, name
    resolution returns [short] trimmed of surrounding spaces and tabs, and
    the only event is the read of the status record. *)
Theorem Name_short_status_name (host : Host) (p : Process)
  (contents short : string) :
  name p = "" ->
  ReadFile host (statusPath host (Pid p)) = (contents, None) ->
  nameEntries (strings.Split contents "010") = [short] ->
  (String.length short < 15)%nat ->
  Name host p =
  (strings.Trim short spaceTab, None,
    setName p (strings.Trim short spaceTab),
    [EvReadFile (statusPath host (Pid p))]).
Proof.
  intros Hfresh Hread Hentries Hshort.
  rewrite (Name_single host p contents short) by assumption.
  pose proof (candidate_length short) as Hlen.
  destruct (Nat.leb_spec 15 (String.length (candidate short)));
    [lia | reflexivity].
Qed.

(** C2.  When the status name has 15 bytes or more and the cmdline record
    yields at least one argument, name resolution returns the base name of
    the first argument if that base name has the status name as a prefix,
    and the first argument itself, unmodified, otherwise. *)
Theorem Name_long_status_name_cmdline (host : Host) (p : Process)
  (contents value arg0 : string) (args : list string) :
  name p = "" ->
  ReadFile host (statusPath host (Pid p)) = (contents, None) ->
  nameEntries (strings.Split contents "010") = [value] ->
  (String.length (candidate value) >= 15)%nat ->
  fst (CmdlineSlice host p) = (arg0 :: args, None) ->
  let resolved :=
    if strings.HasPrefix (filepath.Base arg0) (candidate value)
    then filepath.Base arg0 else arg0 in
  fst (Name host p) = (resolved, None, setName p resolved).
Proof.
  intros Hfresh Hread Hentries Hlong Hcmd resolved.
  rewrite (Name_single host p contents value) by assumption.
  destruct (Nat.leb_spec 15 (String.length (candidate value))); [|lia].
  rewrite Hcmd. reflexivity.
Qed.

(** C8.  When the status name has 15 bytes or more and the cmdline record
    yields no arguments, name resolution keeps and returns the status
    name. *)
Theorem Name_long_status_name_empty_cmdline (host : Host) (p : Process)
  (contents value : string) :
  name p = "" ->
  ReadFile host (statusPath host (Pid p)) = (contents, None) ->
  nameEntries (strings.Split contents "010") = [value] ->
  (String.length (candidate value) >= 15)%nat ->
  fst (CmdlineSlice host p) = ([], None) ->
  fst (Name host p) =
  (candidate value, None, setName p (candidate value)).
Proof.
  intros Hfresh Hread Hentries Hlong Hcmd.
  rewrite (Name_single host p contents value) by assumption.
  destruct (Nat.leb_spec 15 (String.length (candidate value))); [|lia].
  rewrite Hcmd. reflexivity.
Qed.

(** C9.  When the status name has 15 bytes or more and the cmdline record
    cannot be read, the first resolution returns the read error and leaves
    the status name cached in the handle; any number of further calls on
    that handle each return the status name with no error, and perform no
    read at all. *)
Theorem Name_unreadable_cmdline_caches (host : Host) (p : Process)
  (contents value junk : string) (e : error) :
  name p = "" ->
  ReadFile host (statusPath host (Pid p)) = (contents, None) ->
  nameEntries (strings.Split contents "010") = [value] ->
  (String.length (candidate value) >= 15)%nat ->
  ReadFile host (cmdlinePath host (Pid p)) = (junk, Some e) ->
  Name host p =
  ("", Some e, setName p (candidate value),
    [EvReadFile (statusPath host (Pid p));
     EvReadFile (cmdlinePath host (Pid p))]) /\
  forall k : nat,
    Name_repeat host k (setName p (candidate value)) =
    (repeat (candidate value, None) k, setName p (candidate value), []).
Proof.
  intros Hfresh Hread Hentries Hlong Hcmd. split.
  - rewrite (Name_single host p contents value) by assumption.
    destruct (Nat.leb_spec 15 (String.length (candidate value))); [|lia].
    unfold CmdlineSlice, CmdlineSliceWithContext,
    fillSliceFromCmdlineWithContext, bind, perform.
    fold (cmdlinePath host (Pid p)). rewrite Hcmd. reflexivity.
  - intros k.
    apply (Name_repeat_cached host k (setName p (candidate value))).
    cbn [name setName]. intros Hempty. rewrite Hempty in Hlong.
    simpl in Hlong. lia.
Qed.

(** C4, as amended.  Once a resolution has returned a non-empty name with
    no error, any number of further calls on that handle return the same
    name, leave the handle as it is and perform no read. *)
Theorem Name_memoized (host : Host) (p p1 : Process) (n : string)
  (evs : list event) :
  Name host p = (n, None, p1, evs) ->
  n <> "" ->
  forall k : nat, Name_repeat host k p1 = (repeat (n, None) k, p1, []).
Proof.
  intros Hcall Hnonempty k.
  pose proof (Name_success_stored host p p1 n evs Hcall) as Hstored.
  rewrite <- Hstored. apply Name_repeat_cached. congruence.
Qed.

(** ** Events of a resolution and of a delivery *)

Definition isReadFile (ev : event) : bool :=
  match ev with EvReadFile _ => true | _ => false end.

Lemma attempts_app (evs1 evs2 : list event) :
  attempts (evs1 ++ evs2) = attempts evs1 ++ attempts evs2.
Proof.
  induction evs1 as [|ev evs1 IH]; [reflexivity|].
  destruct ev; simpl; rewrite IH; reflexivity.
Qed.

Lemma reads_no_attempts (evs : list event) :
  forallb isReadFile evs = true -> attempts evs = [].
Proof.
  induction evs as [|ev evs IH]; [reflexivity|].
  destruct ev; simpl; try discriminate. exact IH.
Qed.

Lemma reads_no_delivery (evs : list event) :
  forallb isReadFile evs = true -> filter isDelivery evs = [].
Proof.
  induction evs as [|ev evs IH]; [reflexivity|].
  destruct ev; simpl; try discriminate. exact IH.
Qed.

Lemma forallb_app_true {A} (f : A -> bool) (l1 l2 : list A) :
  forallb f l1 = true -> forallb f l2 = true -> forallb f (l1 ++ l2) = true.
Proof. intros H1 H2. rewrite forallb_app, H1, H2. reflexivity. Qed.

Section Handle.

Variable host : Host.

(** The line loop keeps the pid and only reads files. *)
Lemma Name_loop_invariant (lines : list string) :
  forall p : Process,
    Pid (snd (fst (Name_loop host lines p))) = Pid p /\
    forallb isReadFile (snd (Name_loop host lines p)) = true.
Proof.
  induction lines as [|line lines IH]; intros p; [split; reflexivity|].
  destruct (nameEntry line) as [value|] eqn:E.
  - rewrite (Name_loop_entry host _ _ _ _ E). cbv zeta.
    destruct (15 <=? String.length (candidate value))%nat;
      [|exact (IH (setName p (candidate value)))].
    pose proof (CmdlineSlice_events host p) as Hevs. unfold bind.
    destruct (CmdlineSlice host p) as [[cmdlineSlice [e|]] evs];
      simpl in Hevs; subst evs; [split; reflexivity|].
    specialize (IH (setName p (adopt (candidate value) cmdlineSlice))).
    destruct (Name_loop host lines _) as [[early p'] evs']. simpl in *.
    exact IH.
  - rewrite Name_loop_skip by assumption. apply IH.
Qed.

Lemma Name_invariant (p : Process) :
  Pid (snd (fst (Name host p))) = Pid p /\
  forallb isReadFile (snd (Name host p)) = true.
Proof.
  unfold Name, NameWithContext, bind, perform.
  destruct (String.eqb (name p) ""); [|split; reflexivity].
  destruct (ReadFile host _) as [contents [e|]]; [split; reflexivity|].
  pose proof (Name_loop_invariant (strings.Split contents "010") p) as H.
  destruct (Name_loop host _ p) as [[[e|] p'] evs]; simpl in *;
    rewrite app_nil_r; exact H.
Qed.

(** A failed resolution returns the empty string. *)
Lemma Name_error_empty (p : Process) :
  snd (fst (fst (Name host p))) <> None -> fst (fst (fst (Name host p))) = "".
Proof.
  unfold Name, NameWithContext, bind, perform.
  destruct (String.eqb (name p) ""); [|simpl; congruence].
  destruct (ReadFile host _) as [contents [e|]]; [reflexivity|].
  destruct (Name_loop host _ p) as [[[e|] p'] evs]; simpl; congruence.
Qed.

(** [SendSignal] looks at the pid only. *)
Lemma SendSignal_Pid (p : Process) (sig : Z) :
  SendSignal host p sig = SendSignal host (fresh (Pid p)) sig.
Proof. reflexivity. Qed.

Lemma deliverEvents_attempts (pid sig : Z) :
  attempts (deliverEvents host pid sig) = [pid].
Proof.
  unfold deliverEvents, SendSignal, SendSignalWithContext, bind, perform.
  simpl. destruct (FindProcess host pid); [reflexivity|].
  destruct (Signal host pid sig); reflexivity.
Qed.

Lemma deliver_success_signals (pid sig : Z) :
  deliver host pid sig = None ->
  deliverEvents host pid sig = [EvFindProcess pid; EvSignal pid sig] /\
  FindProcess host pid = None /\ Signal host pid sig = None.
Proof.
  unfold deliver, deliverEvents, SendSignal, SendSignalWithContext, bind,
    perform.
  simpl. destruct (FindProcess host pid); [discriminate|].
  destruct (Signal host pid sig); [discriminate|]. auto.
Qed.

Lemma resolveEvents_reads (pid : Z) :
  forallb isReadFile (resolveEvents host pid) = true.
Proof. apply Name_invariant. Qed.

Lemma visit_attempts (target : string) (sig pid : Z) :
  attempts (visit host target sig pid) =
  if String.eqb (resolvedName host pid) target then [pid] else [].
Proof.
  unfold visit. rewrite attempts_app.
  rewrite (reads_no_attempts _ (resolveEvents_reads pid)).
  destruct (String.eqb (resolvedName host pid) target);
    [apply deliverEvents_attempts | reflexivity].
Qed.

(** One iteration of the dispatch loop. *)
Lemma SignalProcs_loop_cons (pid : Z) (procs : list Process)
  (target : string) (sig : Z) :
  SignalProcs_loop host (fresh pid :: procs) target sig =
  if String.eqb (resolvedName host pid) target then
    match deliver host pid sig with
    | Some e => (Some e, visit host target sig pid)
    | None =>
        (fst (SignalProcs_loop host procs target sig),
          visit host target sig pid ++
          snd (SignalProcs_loop host procs target sig))
    end
  else
    (fst (SignalProcs_loop host procs target sig),
      visit host target sig pid ++
      snd (SignalProcs_loop host procs target sig)).
Proof.
  cbn [SignalProcs_loop]. unfold visit, resolvedName, resolveEvents, deliver,
    deliverEvents.
  pose proof (Name_invariant (fresh pid)) as [Hpid _].
  unfold bind at 1.
  destruct (Name host (fresh pid)) as [[[n err] p'] evs]. simpl in Hpid.
  cbn [fst snd].
  destruct (String.eqb n target).
  - rewrite SendSignal_Pid, Hpid. unfold bind.
    destruct (SendSignal host (fresh pid) sig) as [[e|] evs'].
    + unfold ret. cbn [fst snd]. rewrite app_nil_r. reflexivity.
    + destruct (SignalProcs_loop host procs target sig) as [r evs''].
      cbn [fst snd]. rewrite app_assoc. reflexivity.
  - destruct (SignalProcs_loop host procs target sig) as [r evs''].
    cbn [fst snd]. rewrite app_nil_r. reflexivity.
Qed.

End Handle.

(** ** The dispatch loop over an enumeration *)

Section Dispatch.

Variable host : Host.
Variable target : string.
Variable sig : Z.

Let loop (pids : list Z) : IO (option error) :=
  SignalProcs_loop host (map fresh pids) target sig.

Lemma pidsWithContext_events :
  attempts (snd (pidsWithContext host)) = [] /\
  filter isDelivery (snd (pidsWithContext host)) = [] /\
  forall pid s, ~ In (EvSignal pid s) (snd (pidsWithContext host)).
Proof.
  unfold pidsWithContext, readPidsFromDir, bind, perform.
  destruct (Open host _) as [e|].
  - simpl. intuition discriminate.
  - destruct (Readdirnames host _) as [fnames [e|]]; simpl;
      intuition discriminate.
Qed.

Lemma SignalProcs_enumerated (pids : list Z) :
  fst (pidsWithContext host) = (pids, None) ->
  SignalProcs host target sig =
  (fst (loop pids), snd (pidsWithContext host) ++ snd (loop pids)).
Proof.
  unfold SignalProcs, Processes, ProcessesWithContext, loop, bind.
  destruct (pidsWithContext host) as [[pids' err] evs]. simpl.
  intros [= -> ->]. simpl. fold fresh.
  destruct (SignalProcs_loop host (map fresh pids) target sig).
  rewrite app_nil_r. reflexivity.
Qed.

Lemma SignalProcs_not_enumerated (e : error) :
  snd (fst (pidsWithContext host)) = Some e ->
  SignalProcs host target sig = (Some e, snd (pidsWithContext host)).
Proof.
  unfold SignalProcs, Processes, ProcessesWithContext, bind.
  destruct (pidsWithContext host) as [[pids' err] evs]. simpl.
  intros ->. simpl. rewrite !app_nil_r. reflexivity.
Qed.

(** As long as deliveries succeed the loop goes from one process to the
    next. *)
Lemma loop_app (pre rest : list Z) :
  (forall q, In q pre -> resolvedName host q = target ->
             deliver host q sig = None) ->
  loop (pre ++ rest) =
  (fst (loop rest),
    flat_map (visit host target sig) pre ++ snd (loop rest)).
Proof.
  unfold loop. induction pre as [|q pre IH]; intros Hok.
  - simpl. destruct (SignalProcs_loop host _ target sig); reflexivity.
  - cbn [app map flat_map]. rewrite SignalProcs_loop_cons.
    rewrite IH by (intros; apply Hok; [right|]; assumption).
    cbn [fst snd]. rewrite <- app_assoc.
    destruct (String.eqb_spec (resolvedName host q) target) as [Hm|Hm];
      [|reflexivity].
    rewrite (Hok q (or_introl eq_refl) Hm). reflexivity.
Qed.

Lemma loop_complete (pids : list Z) :
  (forall q, In q pids -> resolvedName host q = target ->
             deliver host q sig = None) ->
  loop pids = (None, flat_map (visit host target sig) pids).
Proof.
  intros Hok. pose proof (loop_app pids [] Hok) as H.
  rewrite app_nil_r in H. rewrite H. unfold loop. simpl.
  rewrite app_nil_r. reflexivity.
Qed.

Lemma loop_error_origin (pids : list Z) (e : error) :
  fst (loop pids) = Some e ->
  exists pid, In pid pids /\ resolvedName host pid = target /\
              deliver host pid sig = Some e.
Proof.
  unfold loop. induction pids as [|q pids IH]; [discriminate|].
  cbn [map]. rewrite SignalProcs_loop_cons.
  destruct (String.eqb_spec (resolvedName host q) target) as [Hm|Hm].
  - destruct (deliver host q sig) as [e'|] eqn:Hd; cbn [fst].
    + intros [= ->]. exists q. simpl. auto.
    + intros H. destruct (IH H) as [pid [Hin Hrest]].
      exists pid. simpl. auto.
  - cbn [fst]. intros H. destruct (IH H) as [pid [Hin Hrest]].
    exists pid. simpl. auto.
Qed.

Lemma loop_success (pids : list Z) :
  fst (loop pids) = None ->
  forall q, In q pids -> resolvedName host q = target ->
            deliver host q sig = None.
Proof.
  unfold loop. induction pids as [|q pids IH]; [intros _ q []|].
  cbn [map]. rewrite SignalProcs_loop_cons.
  destruct (String.eqb_spec (resolvedName host q) target) as [Hm|Hm].
  - destruct (deliver host q sig) as [e'|] eqn:Hd; cbn [fst];
      [discriminate|].
    intros H q' [<-|Hin] Hq'; [assumption | apply IH; assumption].
  - cbn [fst]. intros H q' [<-|Hin] Hq'; [contradiction|].
    apply IH; assumption.
Qed.

Lemma loop_attempts (pids : list Z) :
  attempts (snd (loop pids)) =
  untilFailure host sig (filter (isMatch host target) pids).
Proof.
  unfold loop. induction pids as [|q pids IH]; [reflexivity|].
  cbn [map filter]. rewrite SignalProcs_loop_cons. unfold isMatch at 1.
  pose proof (visit_attempts host target sig q) as Hv.
  destruct (String.eqb (resolvedName host q) target).
  - cbn [untilFailure].
    destruct (deliver host q sig); cbn [snd];
      [exact Hv | rewrite attempts_app, Hv, IH; reflexivity].
  - cbn [snd]. rewrite attempts_app, Hv, IH. reflexivity.
Qed.

Lemma visits_attempts (pids : list Z) :
  attempts (flat_map (visit host target sig) pids) =
  filter (isMatch host target) pids.
Proof.
  induction pids as [|q pids IH]; [reflexivity|].
  cbn [flat_map filter]. rewrite attempts_app, visit_attempts, IH.
  unfold isMatch at 2.
  destruct (String.eqb (resolvedName host q) target); reflexivity.
Qed.

Lemma visit_signal (q : Z) :
  resolvedName host q = target -> deliver host q sig = None ->
  In (EvSignal q sig) (visit host target sig q).
Proof.
  intros Hm Hd. unfold visit. rewrite Hm, String.eqb_refl.
  destruct (deliver_success_signals host q sig Hd) as [-> _].
  apply in_or_app. right. simpl. auto.
Qed.

End Dispatch.

(** C6.  When the enumeration succeeds and the name [Name] returns for
    each enumerated process differs from the target, [SignalProcs] returns
    no error and performs no delivery event: no process is looked up and no
    signal is sent. *)
Theorem SignalProcs_no_match (host : Host) (target : string) (sig : Z)
  (pids : list Z) :
  fst (pidsWithContext host) = (pids, None) ->
  (forall pid, In pid pids -> resolvedName host pid <> target) ->
  fst (SignalProcs host target sig) = None /\
  filter isDelivery (snd (SignalProcs host target sig)) = [].
Proof.
  intros Henum Hnone.
  rewrite (SignalProcs_enumerated host target sig pids Henum).
  rewrite loop_complete by (intros q Hq Hm; destruct (Hnone q Hq Hm)).
  cbn [fst snd]. split; [reflexivity|].
  rewrite filter_app.
  destruct (pidsWithContext_events host) as [_ [-> _]]. simpl.
  clear Henum. induction pids as [|q pids IH]; [reflexivity|].
  cbn [flat_map]. rewrite filter_app, IH by (intros; apply Hnone; now right).
  rewrite app_nil_r. unfold visit.
  destruct (String.eqb_spec (resolvedName host q) target) as [Hm|_].
  - destruct (Hnone q (or_introl eq_refl) Hm).
  - rewrite app_nil_r. apply reads_no_delivery, resolveEvents_reads.
Qed.

(** C5.  When the delivery to a matched process fails, the deliveries to
    the matches before it having succeeded, [SignalProcs] returns that
    failure; its events end with that delivery, so nothing is done for any
    later process; deliveries were started for the earlier matches and the
    failing one only, in enumeration order; and the signal sent to each
    earlier match stays part of what the call did. *)
Theorem SignalProcs_delivery_failure (host : Host) (target : string)
  (sig : Z) (pre : list Z) (pid : Z) (post : list Z) (e : error) :
  fst (pidsWithContext host) = (pre ++ pid :: post, None) ->
  (forall q, In q pre -> resolvedName host q = target ->
             deliver host q sig = None) ->
  resolvedName host pid = target ->
  deliver host pid sig = Some e ->
  fst (SignalProcs host target sig) = Some e /\
  snd (SignalProcs host target sig) =
    snd (pidsWithContext host) ++
    flat_map (visit host target sig) pre ++ visit host target sig pid /\
  attempts (snd (SignalProcs host target sig)) =
    filter (isMatch host target) pre ++ [pid] /\
  forall q, In q pre -> resolvedName host q = target ->
            In (EvSignal q sig) (snd (SignalProcs host target sig)).
Proof.
  intros Henum Hpre Hmatch Hfail.
  rewrite (SignalProcs_enumerated host target sig _ Henum).
  rewrite loop_app by assumption.
  cbn [map]. rewrite SignalProcs_loop_cons.
  rewrite Hmatch, String.eqb_refl, Hfail. cbn [fst snd].
  split; [reflexivity|]. split; [reflexivity|]. split.
  - rewrite !attempts_app, visits_attempts, visit_attempts.
    destruct (pidsWithContext_events host) as [-> _].
    rewrite Hmatch, String.eqb_refl. reflexivity.
  - intros q Hq Hm. apply in_or_app. right. apply in_or_app. left.
    apply in_flat_map. exists q. split; [assumption|].
    apply visit_signal; auto.
Qed.

(** C10.  A process whose name resolution fails has the empty string as
    the name [SignalProcs] compares.  For the empty target, deliveries are
    started, in enumeration order, for the processes whose resolution
    failed or whose resolved name is empty, up to the first delivery that
    fails; when the call returns no error the signal was sent to every one
    of them. *)
Theorem SignalProcs_empty_target (host : Host) (sig : Z) (pids : list Z) :
  fst (pidsWithContext host) = (pids, None) ->
  let selected :=
    filter (fun pid =>
              match resolveError host pid with
              | Some _ => true
              | None => String.eqb (resolvedName host pid) ""
              end) pids in
  (forall pid, resolveError host pid <> None -> resolvedName host pid = "") /\
  attempts (snd (SignalProcs host "" sig)) = untilFailure host sig selected /\
  (fst (SignalProcs host "" sig) = None ->
   attempts (snd (SignalProcs host "" sig)) = selected /\
   forall pid, In pid selected ->
     In (EvSignal pid sig) (snd (SignalProcs host "" sig)) /\
     Signal host pid sig = None).
Proof.
  intros Henum selected.
  assert (Hname : forall pid, resolveError host pid <> None ->
                              resolvedName host pid = "").
  { intros pid. apply Name_error_empty. }
  assert (Hsel : selected = filter (isMatch host "") pids).
  { unfold selected. apply filter_ext. intros pid. unfold isMatch.
    destruct (resolveError host pid) eqn:E; [|reflexivity].
    rewrite Hname by congruence. reflexivity. }
  rewrite (SignalProcs_enumerated host "" sig pids Henum). cbn [fst snd].
  destruct (pidsWithContext_events host) as [Hnoatt _].
  split; [exact Hname|]. split.
  - rewrite attempts_app, Hnoatt, loop_attempts, Hsel. reflexivity.
  - intros Hok.
    pose proof (loop_success host "" sig pids Hok) as Hall.
    rewrite loop_complete by assumption. cbn [snd]. split.
    + rewrite attempts_app, Hnoatt, visits_attempts, Hsel. reflexivity.
    + intros pid Hin. rewrite Hsel in Hin.
      apply filter_In in Hin as [Hin Hm]. unfold isMatch in Hm.
      apply String.eqb_eq in Hm. split.
      * apply in_or_app. right. apply in_flat_map. exists pid.
        split; [assumption|]. apply visit_signal; auto.
      * apply (deliver_success_signals host pid sig). auto.
Qed.

(** C1, as amended.  A name-resolution failure is never what
    [SignalProcs] returns.  The process is compared under the empty name;
    for a non-empty target the loop passes over it, doing nothing but the
    reads of the failed resolution, and goes on with the processes after
    it.  An error the call returns is the enumeration's, or that of a
    delivery to a process whose name matched. *)
Theorem SignalProcs_resolution_failure_discarded (host : Host)
  (target : string) (sig : Z) (pid : Z) (procs : list Process) :
  resolveError host pid <> None ->
  resolvedName host pid = "" /\
  (target <> "" ->
   SignalProcs_loop host (fresh pid :: procs) target sig =
   (fst (SignalProcs_loop host procs target sig),
     resolveEvents host pid ++
     snd (SignalProcs_loop host procs target sig))) /\
  (forall e, fst (SignalProcs host target sig) = Some e ->
     snd (fst (pidsWithContext host)) = Some e \/
     exists q, In q (fst (fst (pidsWithContext host))) /\
               resolvedName host q = target /\
               deliver host q sig = Some e).
Proof.
  intros Hfail.
  assert (Hname : resolvedName host pid = "")
    by (apply Name_error_empty; assumption).
  split; [exact Hname|]. split.
  - intros Htarget. rewrite SignalProcs_loop_cons. unfold visit.
    rewrite Hname.
    destruct (String.eqb_spec "" target) as [Heq|_];
      [symmetry in Heq; contradiction|].
    rewrite app_nil_r. reflexivity.
  - intros e.
    destruct (pidsWithContext host) as [[pids [e'|]] evs] eqn:Henum.
    + rewrite (SignalProcs_not_enumerated host target sig e')
        by (rewrite Henum; reflexivity).
      cbn [fst snd]. auto.
    + rewrite (SignalProcs_enumerated host target sig pids)
        by (rewrite Henum; reflexivity).
      cbn [fst snd]. intros H. right.
      apply (loop_error_origin host target sig pids e H).
Qed.

(** ** Parsing directory entry names *)

Lemma isDigit_digit (c : ascii) :
  strconv.isDigit c = true -> (0 <= strconv.digit c <= 9)%Z.
Proof.
  unfold strconv.isDigit, strconv.digit. intros H.
  apply andb_true_iff in H as [H1 H2].
  apply N.leb_le in H1, H2. lia.
Qed.

Lemma decimalFrom_ge (s : string) :
  forall acc : Z,
    allDigits s = true -> (0 <= acc)%Z -> (acc <= decimalFrom s acc)%Z.
Proof.
  induction s as [|c s IH]; simpl; intros acc Hs Hacc; [lia|].
  apply andb_true_iff in Hs as [Hc Hs]. apply isDigit_digit in Hc.
  specialize (IH (acc * 10 + strconv.digit c)%Z Hs). lia.
Qed.

(** The digit loop computes the decimal value, or fails: on a byte that is
    not a digit, or when the value exceeds [maxVal]. *)
Lemma ParseUint_loop_spec (cutoff maxVal : Z) (s : string) :
  (maxVal < cutoff)%Z -> (maxVal * 10 + 9 < 2 ^ 64)%Z ->
  forall n : Z, (0 <= n <= maxVal)%Z ->
    if allDigits s && (decimalFrom s n <=? maxVal)%Z then
      strconv.ParseUint_loop s cutoff maxVal n = (decimalFrom s n, None)
    else
      strconv.ParseUint_loop s cutoff maxVal n
        = (0%Z, Some strconv.ErrSyntax) \/
      strconv.ParseUint_loop s cutoff maxVal n
        = (maxVal, Some strconv.ErrRange).
Proof.
  intros Hcut Hmax. induction s as [|c s IH]; intros n Hn; simpl.
  - destruct (Z.leb_spec n maxVal); [reflexivity | lia].
  - destruct (strconv.isDigit c) eqn:Hc; simpl; [|auto].
    apply isDigit_digit in Hc.
    destruct (Z.leb_spec cutoff n); [lia|].
    rewrite (Z.mod_small (n * 10)) by lia.
    rewrite (Z.mod_small (n * 10 + strconv.digit c)) by lia.
    destruct (Z.ltb_spec (n * 10 + strconv.digit c) (n * 10)); [lia|].
    destruct (Z.ltb_spec maxVal (n * 10 + strconv.digit c)); simpl.
    + destruct (allDigits s) eqn:Hs; simpl; [|auto].
      pose proof (decimalFrom_ge s (n * 10 + strconv.digit c)%Z Hs).
      destruct (Z.leb_spec (decimalFrom s (n * 10 + strconv.digit c))
                  maxVal); [lia | auto].
    + apply IH. lia.
Qed.

Lemma decimalValue_nonneg (s : string) :
  allDigits s = true -> (0 <= decimalValue s)%Z.
Proof. intros H. apply (decimalFrom_ge s 0%Z H). lia. Qed.

(** [ParseUint] at 32 bits. *)
Lemma ParseUint10_32_spec (s : string) :
  if isNonNegDecimal s && (decimalValue s <=? 4294967295)%Z then
    strconv.ParseUint10 s 32 = (decimalValue s, None)
  else
    strconv.ParseUint10 s 32 = (0%Z, Some strconv.ErrSyntax) \/
    strconv.ParseUint10 s 32 = (4294967295%Z, Some strconv.ErrRange).
Proof.
  unfold strconv.ParseUint10, isNonNegDecimal.
  destruct (String.eqb s ""); simpl; [auto|].
  change (2 ^ 32 - 1)%Z with 4294967295%Z.
  apply ParseUint_loop_spec; [reflexivity | reflexivity | lia].
Qed.

(** Case analysis on every integer comparison left in the goal. *)
Ltac split_comparisons :=
  repeat match goal with
    | |- context [(?a <=? ?b)%Z] => destruct (Z.leb_spec a b)
    | |- context [(?a <? ?b)%Z] => destruct (Z.ltb_spec a b)
    end.

(** [ParseInt] at 32 bits succeeds exactly on the entry names that stand
    for a pid, with that pid. *)
Lemma ParseInt10_32_spec (s : string) :
  match pidOfEntry s with
  | Some z => strconv.ParseInt10 s 32 = (z, None)
  | None => snd (strconv.ParseInt10 s 32) <> None
  end.
Proof.
  destruct s as [|c rest]; [simpl; discriminate|].
  unfold pidOfEntry, signedDecimal, strconv.ParseInt10.
  change (2 ^ (32 - 1))%Z with 2147483648%Z.
  change (- 2 ^ 31)%Z with (-2147483648)%Z.
  change (2 ^ 31)%Z with 2147483648%Z.
  destruct (Ascii.eqb_spec c "+") as [->|Hplus];
    [|destruct (Ascii.eqb_spec c "-") as [->|Hminus]];
    cbn [Ascii.eqb Bool.eqb orb negb andb];
    match goal with
    | |- context [strconv.ParseUint10 ?digits 32] =>
        pose proof (ParseUint10_32_spec digits) as H;
        destruct (isNonNegDecimal digits) eqn:Hd; cbn [andb] in H;
        [ apply andb_true_iff in Hd as [_ Hd];
          apply decimalValue_nonneg in Hd;
          destruct (Z.leb_spec (decimalValue digits) 4294967295);
          [rewrite H | destruct H as [-> | ->]]
        | destruct H as [-> | ->] ]
    end;
    split_comparisons; cbn [andb negb snd];
    try lia; try reflexivity; discriminate.
Qed.

(** ** Enumeration *)

Lemma readPids_loop_spec (fnames : list string) :
  forall ret : list Z, readPids_loop fnames ret = ret ++ pidsOfEntries fnames.
Proof.
  induction fnames as [|fname fnames IH]; intros ret; simpl.
  - rewrite app_nil_r. reflexivity.
  - pose proof (ParseInt10_32_spec fname) as H.
    destruct (pidOfEntry fname) as [pid|].
    + rewrite H, IH, <- app_assoc. reflexivity.
    + destruct (strconv.ParseInt10 fname 32) as [pid [err|]];
        [apply IH | simpl in H; congruence].
Qed.

Lemma pidsOfEntries_In (fnames : list string) (pid : Z) :
  In pid (pidsOfEntries fnames) <->
  exists fname, In fname fnames /\ pidOfEntry fname = Some pid.
Proof.
  induction fnames as [|fname fnames IH]; simpl.
  - split; [intros [] | intros [fname [[] _]]].
  - destruct (pidOfEntry fname) as [pid'|] eqn:E; simpl; rewrite IH; split.
    + intros [<-|[f [Hin Hf]]]; [exists fname | exists f]; auto.
    + intros [f [[<-|Hin] Hf]]; [left; congruence | right; exists f; auto].
    + intros [f [Hin Hf]]. exists f. auto.
    + intros [f [[<-|Hin] Hf]]; [congruence | exists f; auto].
Qed.

Lemma pidsOfEntries_filter (fnames : list string) :
  pidsOfEntries (filter isPidEntry fnames) = pidsOfEntries fnames.
Proof.
  induction fnames as [|fname fnames IH]; [reflexivity|].
  simpl. unfold isPidEntry at 1.
  destruct (pidOfEntry fname) as [pid|] eqn:E; simpl.
  - rewrite E, IH. reflexivity.
  - exact IH.
Qed.

(** C3, as amended.  When the root directory can be opened and listed,
    [Processes] returns no error and one handle, in listing order, for
    each entry whose full name is an optional sign followed by decimal
    digits and whose value fits [int32]; every other entry is passed over;
    and listing the directory without those other entries gives the same
    pids. *)
Theorem Processes_entries (host : Host) (fnames : list string) :
  Open host (hostProc host []) = None ->
  Readdirnames host (hostProc host []) = (fnames, None) ->
  fst (Processes host) = (map fresh (pidsOfEntries fnames), None) /\
  (forall pid, In (fresh pid) (fst (fst (Processes host))) <->
     exists fname, In fname fnames /\ pidOfEntry fname = Some pid) /\
  readPids_loop (filter isPidEntry fnames) [] = readPids_loop fnames [].
Proof.
  intros Hopen Hlist.
  assert (H : fst (Processes host) = (map fresh (pidsOfEntries fnames), None)).
  { unfold Processes, ProcessesWithContext, pidsWithContext,
      readPidsFromDir, bind, perform.
    rewrite Hopen, Hlist. simpl. rewrite readPids_loop_spec. reflexivity. }
  split; [exact H|]. split.
  - intros pid. rewrite H. cbn [fst]. rewrite <- pidsOfEntries_In.
    rewrite in_map_iff. split.
    + intros [pid' [[= ->] Hin]]. exact Hin.
    + intros Hin. exists pid. auto.
  - rewrite !readPids_loop_spec. simpl. apply pidsOfEntries_filter.
Qed.

(** The cmdline record yields no arguments exactly when it is empty: a
    record holding a single NUL yields one empty argument. *)
Lemma Split_not_nil (s : string) (sep : ascii) : strings.Split s sep <> [].
Proof.
  destruct s as [|c s]; simpl; [discriminate|].
  destruct (Ascii.eqb c sep); [discriminate|].
  destruct (strings.Split s sep); discriminate.
Qed.

Lemma CmdlineSlice_no_arguments (host : Host) (p : Process)
  (cmdline : string) :
  ReadFile host (cmdlinePath host (Pid p)) = (cmdline, None) ->
  (fst (CmdlineSlice host p) = ([], None) <-> cmdline = "").
Proof.
  intros Hread.
  unfold CmdlineSlice, CmdlineSliceWithContext,
    fillSliceFromCmdlineWithContext, bind, perform.
  fold (cmdlinePath host (Pid p)). rewrite Hread. split.
  - destruct cmdline as [|c rest]; [reflexivity|].
    cbn [String.length Nat.eqb fst snd ret]. unfold bytes.Split.
    intros [= H]. destruct (Split_not_nil _ _ H).
  - intros ->. reflexivity.
Qed.

Example CmdlineSlice_single_NUL :
  fst (CmdlineSlice
         (fixture ["7"] [("/proc/7/cmdline", NULs)] []) (fresh 7))
  = ([""], None).
Proof. reflexivity. Qed.

(** ** The properties on the fixtures *)

(** C1: the claim fails.  Process 1 cannot be resolved, yet [SignalProcs]
    returns no error and goes on to signal process 2. *)
Lemma SignalProcs_resolution_failure_not_returned :
  resolveError fxVanished 1 = Some ENOENT /\
  SignalProcs fxVanished "sleep" 15 =
  (None,
    [EvOpen "/proc"; EvReaddirnames "/proc";
     EvReadFile "/proc/1/status";
     EvReadFile "/proc/2/status"; EvFindProcess 2; EvSignal 2 15]).
Proof. split; reflexivity. Qed.

Lemma SignalProcs_resolution_failure_discarded_witness :
  resolveError fxVanished 1 <> None /\
  resolvedName fxVanished 1 = "" /\
  ("sleep" <> "" ->
   SignalProcs_loop fxVanished [fresh 1; fresh 2] "sleep" 15 =
   (fst (SignalProcs_loop fxVanished [fresh 2] "sleep" 15),
     resolveEvents fxVanished 1 ++
     snd (SignalProcs_loop fxVanished [fresh 2] "sleep" 15))) /\
  (forall e, fst (SignalProcs fxVanished "sleep" 15) = Some e ->
     snd (fst (pidsWithContext fxVanished)) = Some e \/
     exists q, In q (fst (fst (pidsWithContext fxVanished))) /\
               resolvedName fxVanished q = "sleep" /\
               deliver fxVanished q 15 = Some e).
Proof.
  assert (h : resolveError fxVanished 1 <> None) by discriminate.
  exact (conj h
    (SignalProcs_resolution_failure_discarded fxVanished "sleep" 15 1
       [fresh 2] h)).
Defined.

(** C3: the claim fails.  The entry [-5] is not a non-negative integer and
    gets a handle; the entry [2147483648] is one and gets none. *)
Lemma Processes_not_the_nonneg_decimals :
  fst (Processes fxEntries) = ([fresh 1; fresh (-5)], None) /\
  filter isNonNegDecimal ["1"; "-5"; "2147483648"; "self"]
  = ["1"; "2147483648"] /\
  fst (fst (Processes fxEntries)) <>
  map (fun fname => fresh (decimalValue fname))
    (filter isNonNegDecimal ["1"; "-5"; "2147483648"; "self"]).
Proof.
  split; [reflexivity|]. split; [reflexivity|]. discriminate.
Qed.

Lemma Processes_entries_witness :
  Open fxEntries (hostProc fxEntries []) = None /\
  Readdirnames fxEntries (hostProc fxEntries [])
  = (["1"; "-5"; "2147483648"; "self"], None) /\
  fst (Processes fxEntries) = ([fresh 1; fresh (-5)], None).
Proof.
  assert (h1 : Open fxEntries (hostProc fxEntries []) = None)
    by reflexivity.
  assert (h2 : Readdirnames fxEntries (hostProc fxEntries [])
               = (["1"; "-5"; "2147483648"; "self"], None))
    by reflexivity.
  exact (conj h1 (conj h2
    (proj1 (Processes_entries fxEntries _ h1 h2)))).
Defined.

(** C4: the claim fails.  The status record of process 7 has an empty
    name: the first resolution succeeds, and the second reads the status
    record again. *)
Lemma Name_empty_name_read_again :
  Name fxEmptyName (fresh 7)
  = ("", None, fresh 7, [EvReadFile "/proc/7/status"]) /\
  Name_repeat fxEmptyName 2 (fresh 7)
  = ([("", None); ("", None)], fresh 7,
      [EvReadFile "/proc/7/status"; EvReadFile "/proc/7/status"]) /\
  snd (Name fxEmptyName (snd (fst (Name fxEmptyName (fresh 7))))) <> [].
Proof.
  split; [reflexivity|]. split; [reflexivity|]. discriminate.
Qed.

Lemma Name_memoized_witness :
  Name fxShort (fresh 7)
  = ("short", None, mkProcess 7 "short", [EvReadFile "/proc/7/status"]) /\
  "short" <> "" /\
  Name_repeat fxShort 3 (mkProcess 7 "short")
  = ([("short", None); ("short", None); ("short", None)],
      mkProcess 7 "short", []).
Proof.
  assert (h1 : Name fxShort (fresh 7)
               = ("short", None, mkProcess 7 "short",
                   [EvReadFile "/proc/7/status"])) by reflexivity.
  assert (h2 : "short" <> "") by discriminate.
  exact (conj h1 (conj h2 (Name_memoized fxShort _ _ _ _ h1 h2 3))).
Defined.

Lemma Name_short_status_name_witness :
  name (fresh 7) = "" /\
  ReadFile fxShort (statusPath fxShort 7) = (statusOf "short", None) /\
  nameEntries (strings.Split (statusOf "short") "010") = ["short"] /\
  (String.length "short" < 15)%nat /\
  Name fxShort (fresh 7)
  = ("short", None, mkProcess 7 "short", [EvReadFile "/proc/7/status"]).
Proof.
  assert (h1 : name (fresh 7) = "") by reflexivity.
  assert (h2 : ReadFile fxShort (statusPath fxShort 7)
               = (statusOf "short", None)) by reflexivity.
  assert (h3 : nameEntries (strings.Split (statusOf "short") "010")
               = ["short"]) by reflexivity.
  assert (h4 : (String.length "short" < 15)%nat) by (simpl; lia).
  exact (conj h1 (conj h2 (conj h3 (conj h4
    (Name_short_status_name fxShort (fresh 7) _ _ h1 h2 h3 h4))))).
Defined.

Lemma Name_long_status_name_cmdline_witness :
  name (fresh 7) = "" /\
  ReadFile fxExtended (statusPath fxExtended 7)
  = (statusOf longName, None) /\
  nameEntries (strings.Split (statusOf longName) "010") = [longName] /\
  (String.length (candidate longName) >= 15)%nat /\
  fst (CmdlineSlice fxExtended (fresh 7))
  = (["/usr/bin/averylongprocessname-extended"; "--flag"], None) /\
  fst (Name fxExtended (fresh 7))
  = ("averylongprocessname-extended", None,
      mkProcess 7 "averylongprocessname-extended").
Proof.
  assert (h1 : name (fresh 7) = "") by reflexivity.
  assert (h2 : ReadFile fxExtended (statusPath fxExtended 7)
               = (statusOf longName, None)) by reflexivity.
  assert (h3 : nameEntries (strings.Split (statusOf longName) "010")
               = [longName]) by reflexivity.
  assert (h4 : (String.length (candidate longName) >= 15)%nat)
    by (vm_compute; lia).
  assert (h5 : fst (CmdlineSlice fxExtended (fresh 7))
               = (["/usr/bin/averylongprocessname-extended"; "--flag"],
                   None)) by reflexivity.
  exact (conj h1 (conj h2 (conj h3 (conj h4 (conj h5
    (Name_long_status_name_cmdline fxExtended (fresh 7) _ _ _ _
       h1 h2 h3 h4 h5)))))).
Defined.

Lemma Name_long_status_name_empty_cmdline_witness :
  name (fresh 7) = "" /\
  ReadFile fxEmptyCmdline (statusPath fxEmptyCmdline 7)
  = (statusOf longName, None) /\
  nameEntries (strings.Split (statusOf longName) "010") = [longName] /\
  (String.length (candidate longName) >= 15)%nat /\
  fst (CmdlineSlice fxEmptyCmdline (fresh 7)) = ([], None) /\
  fst (Name fxEmptyCmdline (fresh 7))
  = (longName, None, mkProcess 7 longName).
Proof.
  assert (h1 : name (fresh 7) = "") by reflexivity.
  assert (h2 : ReadFile fxEmptyCmdline (statusPath fxEmptyCmdline 7)
               = (statusOf longName, None)) by reflexivity.
  assert (h3 : nameEntries (strings.Split (statusOf longName) "010")
               = [longName]) by reflexivity.
  assert (h4 : (String.length (candidate longName) >= 15)%nat)
    by (vm_compute; lia).
  assert (h5 : fst (CmdlineSlice fxEmptyCmdline (fresh 7)) = ([], None))
    by reflexivity.
  exact (conj h1 (conj h2 (conj h3 (conj h4 (conj h5
    (Name_long_status_name_empty_cmdline fxEmptyCmdline (fresh 7) _ _
       h1 h2 h3 h4 h5)))))).
Defined.

Lemma Name_unreadable_cmdline_caches_witness :
  name (fresh 7) = "" /\
  ReadFile fxUnreadableCmdline (statusPath fxUnreadableCmdline 7)
  = (statusOf longName, None) /\
  nameEntries (strings.Split (statusOf longName) "010") = [longName] /\
  (String.length (candidate longName) >= 15)%nat /\
  ReadFile fxUnreadableCmdline (cmdlinePath fxUnreadableCmdline 7)
  = ("", Some ENOENT) /\
  Name fxUnreadableCmdline (fresh 7)
  = ("", Some ENOENT, mkProcess 7 longName,
      [EvReadFile "/proc/7/status"; EvReadFile "/proc/7/cmdline"]) /\
  forall k : nat,
    Name_repeat fxUnreadableCmdline k (mkProcess 7 longName)
    = (repeat (longName, None) k, mkProcess 7 longName, []).
Proof.
  assert (h1 : name (fresh 7) = "") by reflexivity.
  assert (h2 : ReadFile fxUnreadableCmdline
                 (statusPath fxUnreadableCmdline 7)
               = (statusOf longName, None)) by reflexivity.
  assert (h3 : nameEntries (strings.Split (statusOf longName) "010")
               = [longName]) by reflexivity.
  assert (h4 : (String.length (candidate longName) >= 15)%nat)
    by (vm_compute; lia).
  assert (h5 : ReadFile fxUnreadableCmdline
                 (cmdlinePath fxUnreadableCmdline 7)
               = ("", Some ENOENT)) by reflexivity.
  exact (conj h1 (conj h2 (conj h3 (conj h4 (conj h5
    (Name_unreadable_cmdline_caches fxUnreadableCmdline (fresh 7) _ _ _ _
       h1 h2 h3 h4 h5)))))).
Defined.

Lemma SignalProcs_no_match_witness :
  fst (pidsWithContext fxRefused) = ([1; 2; 3; 4]%Z, None) /\
  (forall pid, In pid [1; 2; 3; 4]%Z ->
               resolvedName fxRefused pid <> "bash") /\
  fst (SignalProcs fxRefused "bash" 15) = None /\
  filter isDelivery (snd (SignalProcs fxRefused "bash" 15)) = [].
Proof.
  assert (h1 : fst (pidsWithContext fxRefused) = ([1; 2; 3; 4]%Z, None))
    by reflexivity.
  assert (h2 : forall pid, In pid [1; 2; 3; 4]%Z ->
                           resolvedName fxRefused pid <> "bash").
  { intros pid [<-|[<-|[<-|[<-|[]]]]]; discriminate. }
  exact (conj h1 (conj h2
    (SignalProcs_no_match fxRefused "bash" 15 _ h1 h2))).
Defined.

Lemma SignalProcs_delivery_failure_witness :
  fst (pidsWithContext fxRefused) = ([1; 2] ++ 3 :: [4], None)%Z /\
  (forall q, In q [1; 2]%Z -> resolvedName fxRefused q = "sleep" ->
             deliver fxRefused q 15 = None) /\
  resolvedName fxRefused 3 = "sleep" /\
  deliver fxRefused 3 15 = Some EPERM /\
  fst (SignalProcs fxRefused "sleep" 15) = Some EPERM /\
  attempts (snd (SignalProcs fxRefused "sleep" 15)) = [1; 3]%Z.
Proof.
  assert (h1 : fst (pidsWithContext fxRefused)
               = ([1; 2] ++ 3 :: [4], None)%Z) by reflexivity.
  assert (h2 : forall q, In q [1; 2]%Z ->
                 resolvedName fxRefused q = "sleep" ->
                 deliver fxRefused q 15 = None).
  { intros q [<-|[<-|[]]] _; reflexivity. }
  assert (h3 : resolvedName fxRefused 3 = "sleep") by reflexivity.
  assert (h4 : deliver fxRefused 3 15 = Some EPERM) by reflexivity.
  pose proof (SignalProcs_delivery_failure fxRefused "sleep" 15
                [1; 2]%Z 3%Z [4%Z] EPERM h1 h2 h3 h4) as H.
  exact (conj h1 (conj h2 (conj h3 (conj h4
    (conj (proj1 H) (proj1 (proj2 (proj2 H)))))))).
Defined.

Lemma SignalProcs_empty_target_witness :
  fst (pidsWithContext fxVanished) = ([1; 2]%Z, None) /\
  resolveError fxVanished 1 = Some ENOENT /\
  attempts (snd (SignalProcs fxVanished "" 15)) = [1%Z] /\
  In (EvSignal 1 15) (snd (SignalProcs fxVanished "" 15)).
Proof.
  assert (h1 : fst (pidsWithContext fxVanished) = ([1; 2]%Z, None))
    by reflexivity.
  pose proof (SignalProcs_empty_target fxVanished 15 _ h1) as H.
  cbv zeta in H. destruct H as [_ [_ H]].
  specialize (H eq_refl). destruct H as [Hatt Hall].
  exact (conj h1 (conj eq_refl
    (conj Hatt (proj1 (Hall 1%Z (or_introl eq_refl)))))).
Defined.

(** * Further properties of the package *)

(** ** Enumeration: failures, handles, names of pids *)

(** X1.  When the process directory cannot be opened, or cannot be
    listed, [Processes] returns that error with no handle (names listed
    before the failure are dropped), and [SignalProcs] returns the error
    having done nothing but the enumeration: no record is read and no
    delivery is started. *)
Theorem SignalProcs_enumeration_failure (host : Host) (target : string)
  (sig : Z) (e : error) :
  Open host (hostProc host []) = Some e \/
  (Open host (hostProc host []) = None /\
   snd (Readdirnames host (hostProc host [])) = Some e) ->
  fst (Processes host) = ([], Some e) /\
  SignalProcs host target sig = (Some e, snd (Processes host)) /\
  filter isReadFile (snd (SignalProcs host target sig)) = [] /\
  filter isDelivery (snd (SignalProcs host target sig)) = [].
Proof.
  intros H.
  assert (Hp : Processes host = ([], Some e, [EvOpen (hostProc host [])])
               \/ Processes host
                  = ([], Some e, [EvOpen (hostProc host []);
                                  EvReaddirnames (hostProc host [])])).
  { unfold Processes, ProcessesWithContext, pidsWithContext,
      readPidsFromDir, bind, perform.
    destruct H as [-> | [-> Hlist]]; [left; reflexivity|].
    destruct (Readdirnames host _) as [fnames err]. simpl in Hlist.
    subst err. right. reflexivity. }
  assert (Hs : SignalProcs host target sig = (Some e, snd (Processes host))).
  { unfold SignalProcs, bind.
    destruct Hp as [-> | ->]; reflexivity. }
  rewrite Hs. cbn [snd].
  destruct Hp as [-> | ->]; repeat split; reflexivity.
Qed.

Lemma pidOfEntry_inInt32 (fname : string) (pid : Z) :
  pidOfEntry fname = Some pid -> inInt32 pid.
Proof.
  unfold pidOfEntry, inInt32.
  change (- 2 ^ 31)%Z with (-2147483648)%Z.
  change (2 ^ 31)%Z with 2147483648%Z.
  destruct (signedDecimal fname) as [z|]; [|discriminate].
  destruct (Z.leb_spec (-2147483648) z); [|discriminate].
  destruct (Z.ltb_spec z 2147483648); [|discriminate].
  intros [= <-]. lia.
Qed.

(** X2.  Every handle [Processes] returns is unresolved (its cached name
    is empty) and carries a pid that fits [int32], so that the conversion
    [int32(pid)] has lost nothing. *)
Theorem Processes_handles_unresolved_int32 (host : Host) (p : Process) :
  In p (fst (fst (Processes host))) -> name p = "" /\ inInt32 (Pid p).
Proof.
  unfold Processes, ProcessesWithContext, pidsWithContext, readPidsFromDir,
    bind, perform.
  destruct (Open host _) as [e|]; [intros []|].
  destruct (Readdirnames host _) as [fnames [e|]]; [intros []|].
  cbn [fst snd ret app]. rewrite readPids_loop_spec. cbn [app].
  intros Hin. apply in_map_iff in Hin as [pid [<- Hin]].
  apply pidsOfEntries_In in Hin as [fname [_ Hpid]].
  split; [reflexivity | exact (pidOfEntry_inInt32 _ _ Hpid)].
Qed.

(** The decimal text of a positive number, read back. *)
Lemma string_of_uint_digits (d : Decimal.uint) :
  allDigits (DecimalString.NilEmpty.string_of_uint d) = true /\
  forall acc : Z,
    decimalFrom (DecimalString.NilEmpty.string_of_uint d) acc
    = uintValue d acc.
Proof.
  induction d as [|d [IH1 IH2]|d [IH1 IH2]|d [IH1 IH2]|d [IH1 IH2]
                  |d [IH1 IH2]|d [IH1 IH2]|d [IH1 IH2]|d [IH1 IH2]
                  |d [IH1 IH2]|d [IH1 IH2]];
    (split; [try reflexivity; simpl; exact IH1
            | intros acc; try reflexivity; simpl; apply IH2]).
Qed.

Lemma uintValue_acc (d : Decimal.uint) :
  forall acc : positive,
    uintValue d (Zpos acc) = Zpos (Pos.of_uint_acc d acc).
Proof.
  induction d; intros acc; cbn [uintValue Pos.of_uint_acc];
    try reflexivity;
    match goal with
    | IH : forall acc : positive, _ |- _ => rewrite <- IH; f_equal; lia
    end.
Qed.

Lemma uintValue_of_uint (d : Decimal.uint) :
  uintValue d 0 = Z.of_N (Pos.of_uint d).
Proof.
  induction d; cbn [uintValue Pos.of_uint]; try reflexivity;
    try assumption; apply uintValue_acc.
Qed.

Lemma decimalValue_to_uint (p : positive) :
  let s := DecimalString.NilEmpty.string_of_uint (Pos.to_uint p) in
  isNonNegDecimal s = true /\ decimalValue s = Zpos p /\
  strconv.Itoa (Zpos p) = s /\
  strconv.Itoa (Zneg p) = String "-" s.
Proof.
  intros s. destruct (string_of_uint_digits (Pos.to_uint p)) as [Hd Hv].
  pose proof (DecimalPos.Unsigned.to_uint_nonnil p) as Hnil.
  assert (Hs : s <> "").
  { unfold s. destruct (Pos.to_uint p); simpl; congruence. }
  split; [|split; [|split]].
  - unfold isNonNegDecimal. fold s in Hd. rewrite Hd.
    destruct (String.eqb_spec s ""); [contradiction | reflexivity].
  - unfold decimalValue, s. rewrite Hv, uintValue_of_uint.
    rewrite DecimalPos.Unsigned.of_to. reflexivity.
  - unfold strconv.Itoa, s. cbn [Z.to_int].
    unfold DecimalString.NilZero.string_of_int,
      DecimalString.NilZero.string_of_uint.
    destruct (Pos.to_uint p); congruence.
  - unfold strconv.Itoa, s. cbn [Z.to_int].
    unfold DecimalString.NilZero.string_of_int,
      DecimalString.NilZero.string_of_uint.
    destruct (Pos.to_uint p); congruence.
Qed.

(** The entry named by [Itoa] of a pid stands for that pid. *)
Lemma pidOfEntry_Itoa (pid : Z) :
  inInt32 pid -> pidOfEntry (strconv.Itoa pid) = Some pid.
Proof.
  unfold inInt32. intros Hrange.
  assert (Hsigned : signedDecimal (strconv.Itoa pid) = Some pid).
  { destruct pid as [|p|p]; [reflexivity| |];
      destruct (decimalValue_to_uint p) as [Hd [Hv [Hpos Hneg]]].
    - rewrite Hpos. unfold signedDecimal.
      destruct (DecimalString.NilEmpty.string_of_uint (Pos.to_uint p))
        as [|c rest] eqn:E; [discriminate|].
      assert (Hc : strconv.isDigit c = true).
      { unfold isNonNegDecimal in Hd. simpl in Hd.
        apply andb_true_iff in Hd as [Hc _]. exact Hc. }
      destruct (Ascii.eqb_spec c "+") as [->|_]; [discriminate|].
      destruct (Ascii.eqb_spec c "-") as [->|_]; [discriminate|].
      rewrite Hd, Hv. reflexivity.
    - rewrite Hneg. unfold signedDecimal. cbn [Ascii.eqb Bool.eqb].
      rewrite Hd, Hv. reflexivity. }
  unfold pidOfEntry. rewrite Hsigned.
  change (- 2 ^ 31)%Z with (-2147483648)%Z.
  change (2 ^ 31)%Z with 2147483648%Z.
  destruct (Z.leb_spec (-2147483648) pid); [|lia].
  destruct (Z.ltb_spec pid 2147483648); [reflexivity | lia].
Qed.

(** X3.  Names and pids round-trip: when the directory lists, for some
    pids that fit [int32], the names under which [Name] looks their
    records up ([Itoa] of the pid), [Processes] returns handles for
    exactly these pids, in that order. *)
Theorem Processes_of_pid_names (host : Host) (pids : list Z) :
  Forall inInt32 pids ->
  Open host (hostProc host []) = None ->
  Readdirnames host (hostProc host []) = (map strconv.Itoa pids, None) ->
  fst (Processes host) = (map fresh pids, None).
Proof.
  intros Hrange Hopen Hlist.
  unfold Processes, ProcessesWithContext, pidsWithContext, readPidsFromDir,
    bind, perform.
  rewrite Hopen, Hlist. cbn [fst snd ret app].
  rewrite readPids_loop_spec. cbn [app].
  assert (Hpids : pidsOfEntries (map strconv.Itoa pids) = pids).
  { clear Hlist. induction pids as [|pid pids IH]; [reflexivity|].
    apply Forall_cons_iff in Hrange as [Hpid Hrange].
    cbn [map pidsOfEntries].
    rewrite (pidOfEntry_Itoa pid Hpid), (IH Hrange). reflexivity. }
  rewrite Hpids. reflexivity.
Qed.

(** ** Name resolution: several or no [Name] lines, failures, events *)

Lemma last_cons_default {A} (a d : A) (l : list A) :
  last (a :: l) d = last l a.
Proof.
  revert a d. induction l as [|b l IH]; intros a d; [reflexivity|].
  change (last (a :: b :: l) d) with (last (b :: l) d).
  rewrite (IH b d), (IH b a). reflexivity.
Qed.

Lemma setName_name (p : Process) : setName p (name p) = p.
Proof. destruct p; reflexivity. Qed.

Lemma Name_loop_short (host : Host) (lines : list string) :
  Forall isShort (nameEntries lines) ->
  forall p : Process,
    Name_loop host lines p =
    ret (None,
         setName p (last (map candidate (nameEntries lines)) (name p))).
Proof.
  induction lines as [|line lines IH]; intros Hshort p.
  - cbn [nameEntries map last Name_loop]. rewrite setName_name.
    reflexivity.
  - cbn [nameEntries] in *. destruct (nameEntry line) as [value|] eqn:E.
    + apply Forall_cons_iff in Hshort as [Hvalue Hshort].
      rewrite (Name_loop_entry host _ _ _ _ E). cbv zeta.
      unfold isShort in Hvalue.
      destruct (Nat.leb_spec 15 (String.length (candidate value))); [lia|].
      rewrite (IH Hshort). cbn [map name setName Pid].
      rewrite last_cons_default. reflexivity.
    + rewrite Name_loop_skip by assumption. apply IH. assumption.
Qed.

(** X4.  When every line keyed [Name] of the status record has a value
    whose trimmed form is shorter than 15 bytes, resolution returns the
    trimmed value of the last such line, and the empty name when there is
    none; it caches that name and reads nothing but the status record. *)
Theorem Name_short_entries_last_decides (host : Host) (p : Process)
  (contents : string) :
  name p = "" ->
  ReadFile host (statusPath host (Pid p)) = (contents, None) ->
  Forall isShort (nameEntries (strings.Split contents "010")) ->
  let resolved :=
    last (map candidate (nameEntries (strings.Split contents "010"))) "" in
  Name host p =
  (resolved, None, setName p resolved,
    [EvReadFile (statusPath host (Pid p))]).
Proof.
  intros Hfresh Hread Hshort resolved.
  unfold Name, NameWithContext. rewrite Hfresh. cbn [String.eqb].
  fold (statusPath host (Pid p)). unfold bind at 1, perform.
  rewrite Hread. rewrite (Name_loop_short host _ Hshort). rewrite Hfresh.
  reflexivity.
Qed.

(** X5.  A failure to read the status record is not cached: each of any
    number of calls on the handle reads the status record again and
    returns the error with the empty name, and the handle stays as it
    was. *)
Theorem Name_unreadable_status_not_cached (host : Host) (p : Process)
  (junk : string) (e : error) :
  name p = "" ->
  ReadFile host (statusPath host (Pid p)) = (junk, Some e) ->
  forall k : nat,
    Name_repeat host k p =
    (repeat ("", Some e) k, p,
      repeat (EvReadFile (statusPath host (Pid p))) k).
Proof.
  intros Hfresh Hread.
  assert (Hcall : Name host p
                  = ("", Some e, p, [EvReadFile (statusPath host (Pid p))])).
  { unfold Name, NameWithContext. rewrite Hfresh. cbn [String.eqb].
    fold (statusPath host (Pid p)). unfold bind, perform.
    rewrite Hread. reflexivity. }
  induction k as [|k IH]; [reflexivity|].
  cbn [Name_repeat repeat]. rewrite Hcall. unfold bind at 1.
  rewrite IH. unfold bind, ret. cbn [app]. rewrite app_nil_r.
  reflexivity.
Qed.

Lemma Name_loop_cmdline_reads (host : Host) (lines : list string) :
  forall p : Process, exists n : nat,
    snd (Name_loop host lines p)
    = repeat (EvReadFile (cmdlinePath host (Pid p))) n /\
    (n <= List.length (nameEntries lines))%nat.
Proof.
  induction lines as [|line lines IH]; intros p.
  - exists 0%nat. split; [reflexivity | simpl; lia].
  - cbn [nameEntries]. destruct (nameEntry line) as [value|] eqn:E.
    + rewrite (Name_loop_entry host _ _ _ _ E). cbv zeta.
      destruct (15 <=? String.length (candidate value))%nat.
      * pose proof (CmdlineSlice_events host p) as Hevs. unfold bind.
        destruct (CmdlineSlice host p) as [[cmdlineSlice [e|]] evs];
          simpl in Hevs; subst evs.
        -- exists 1%nat. split; [reflexivity | simpl; lia].
        -- destruct (IH (setName p (adopt (candidate value) cmdlineSlice)))
             as [n [Hn Hle]].
           destruct (Name_loop host lines _) as [[early p'] evs'].
           cbn [snd Pid setName] in *. subst evs'.
           exists (S n). split; [reflexivity | simpl; lia].
      * destruct (IH (setName p (candidate value))) as [n [Hn Hle]].
        exists n. split; [exact Hn | simpl; lia].
    + rewrite Name_loop_skip by assumption.
      destruct (IH p) as [n [Hn Hle]]. exists n. auto.
Qed.

(** X6.  A call of [Name] keeps the handle's pid.  On a handle with a
    cached name it does nothing; on an unresolved handle it reads the
    status record of its own pid once, first, and after that only the
    cmdline record of its own pid, at most once for each line keyed
    [Name]. *)
Theorem Name_reads_own_records (host : Host) (p : Process) :
  Pid (snd (fst (Name host p))) = Pid p /\
  exists n : nat,
    snd (Name host p) =
      (if String.eqb (name p) "" then
         EvReadFile (statusPath host (Pid p)) ::
         repeat (EvReadFile (cmdlinePath host (Pid p))) n
       else []) /\
    (n <= List.length
            (nameEntries
               (strings.Split
                  (fst (ReadFile host (statusPath host (Pid p)))) "010")))%nat.
Proof.
  split; [apply Name_invariant|].
  unfold Name, NameWithContext.
  destruct (String.eqb (name p) "");
    [|exists 0%nat; split; [reflexivity | lia]].
  fold (statusPath host (Pid p)). unfold bind at 1, perform.
  destruct (ReadFile host (statusPath host (Pid p))) as [contents [e|]];
    [exists 0%nat; split; [reflexivity | lia]|].
  destruct (Name_loop_cmdline_reads host (strings.Split contents "010") p)
    as [n [Hn Hle]].
  exists n. split; [|exact Hle]. unfold bind.
  destruct (Name_loop host _ p) as [[[e|] p'] evs]; cbn [snd] in *;
    subst evs; cbn [ret fst snd app]; rewrite app_nil_r; reflexivity.
Qed.

(** X11.  What [Name] returns fits the handle: without an error the name
    returned is the name the call leaves cached in the handle; an error is
    returned only for a handle that was unresolved, and then with the
    empty name. *)
Theorem Name_result_consistent (host : Host) (p : Process) :
  (snd (fst (fst (Name host p))) = None ->
   fst (fst (fst (Name host p))) = name (snd (fst (Name host p)))) /\
  (snd (fst (fst (Name host p))) <> None ->
   fst (fst (fst (Name host p))) = "" /\ name p = "").
Proof.
  unfold Name, NameWithContext, bind, perform.
  destruct (String.eqb_spec (name p) "") as [Hempty|Hcached].
  - destruct (ReadFile host _) as [contents [e|]].
    + cbn. split; [discriminate | auto].
    + destruct (Name_loop host _ p) as [[[e|] p'] evs]; cbn; split;
        try discriminate; try congruence; auto.
  - cbn. split; [reflexivity | congruence].
Qed.

(** ** The arguments of the cmdline record *)

Lemma concat_Split (s : string) (sep : ascii) :
  String.concat (String sep "") (strings.Split s sep) = s.
Proof.
  induction s as [|c s IH]; [reflexivity|].
  cbn [strings.Split]. pose proof (Split_not_nil s sep) as Hnil.
  destruct (strings.Split s sep) as [|piece pieces]; [contradiction|].
  destruct (Ascii.eqb_spec c sep) as [->|_].
  - change (String.concat (String sep "") ("" :: piece :: pieces))
      with (String sep (String.concat (String sep "") (piece :: pieces))).
    rewrite IH. reflexivity.
  - destruct pieces as [|piece' pieces].
    + simpl in *. rewrite IH. reflexivity.
    + change (String.concat (String sep "")
                (String c piece :: piece' :: pieces))
        with (String c (String.concat (String sep "")
                          (piece :: piece' :: pieces))).
      rewrite IH. reflexivity.
Qed.

Lemma Split_no_sep (s : string) (sep : ascii) :
  Forall (fun piece => containsByte sep piece = false) (strings.Split s sep).
Proof.
  induction s as [|c s IH]; [repeat constructor|].
  cbn [strings.Split]. pose proof (Split_not_nil s sep) as Hnil.
  destruct (strings.Split s sep) as [|piece pieces]; [contradiction|].
  destruct (Ascii.eqb c sep) eqn:E.
  - constructor; [reflexivity | exact IH].
  - apply Forall_cons_iff in IH as [Hpiece Hpieces].
    constructor; [|exact Hpieces]. cbn [containsByte].
    rewrite E, Hpiece. reflexivity.
Qed.

(** X7.  A readable, non-empty cmdline record yields at least one
    argument and no error; no argument contains a NUL; and the arguments
    joined by NUL give the record back, without the one NUL that may end
    it. *)
Theorem CmdlineSlice_round_trip (host : Host) (p : Process)
  (cmdline : string) :
  ReadFile host (cmdlinePath host (Pid p)) = (cmdline, None) ->
  cmdline <> "" ->
  snd (fst (CmdlineSlice host p)) = None /\
  fst (fst (CmdlineSlice host p)) <> [] /\
  String.concat NULs (fst (fst (CmdlineSlice host p)))
  = stripTrailingNUL cmdline /\
  Forall (fun arg => containsByte NUL arg = false)
    (fst (fst (CmdlineSlice host p))).
Proof.
  intros Hread Hnonempty.
  unfold CmdlineSlice, CmdlineSliceWithContext,
    fillSliceFromCmdlineWithContext, bind, perform.
  fold (cmdlinePath host (Pid p)). rewrite Hread.
  destruct cmdline as [|c rest]; [contradiction|].
  cbn [String.length Nat.eqb fst snd ret].
  fold (stripTrailingNUL (String c rest)).
  unfold bytes.Split. split; [reflexivity|].
  split; [apply Split_not_nil|]. split.
  - apply concat_Split.
  - apply Split_no_sep.
Qed.

(** ** Dispatch: who is signalled, and when the call succeeds *)

Lemma loop_events_visit (host : Host) (target : string) (sig : Z)
  (pids : list Z) (ev : event) :
  In ev (snd (SignalProcs_loop host (map fresh pids) target sig)) ->
  exists q, In q pids /\ In ev (visit host target sig q).
Proof.
  induction pids as [|q pids IH]; [intros []|].
  cbn [map]. rewrite SignalProcs_loop_cons.
  assert (Hrest :
    In ev (visit host target sig q ++
           snd (SignalProcs_loop host (map fresh pids) target sig)) ->
    exists q', In q' (q :: pids) /\ In ev (visit host target sig q')).
  { intros Hin. apply in_app_or in Hin as [Hin|Hin].
    - exists q. simpl. auto.
    - destruct (IH Hin) as [q' [Hq' Hev]]. exists q'. simpl. auto. }
  destruct (String.eqb (resolvedName host q) target);
    [destruct (deliver host q sig)|]; cbn [snd]; try exact Hrest.
  intros Hin. exists q. simpl. auto.
Qed.

Lemma visit_EvSignal (host : Host) (target : string) (sig q pid s : Z) :
  In (EvSignal pid s) (visit host target sig q) ->
  pid = q /\ s = sig /\ resolvedName host q = target /\
  FindProcess host q = None.
Proof.
  unfold visit. intros Hin. apply in_app_or in Hin as [Hin|Hin].
  - pose proof (resolveEvents_reads host q) as Hreads.
    rewrite forallb_forall in Hreads. apply Hreads in Hin. discriminate.
  - destruct (String.eqb_spec (resolvedName host q) target) as [Hm|_];
      [|destruct Hin].
    revert Hin.
    unfold deliverEvents, SendSignal, SendSignalWithContext, bind, perform.
    cbn [Pid fresh].
    destruct (FindProcess host q) as [e|].
    + cbn. intros [Hin|[]]. discriminate.
    + destruct (Signal host q sig); cbn;
        (intros [Hin|[Hin|[]]]; [discriminate|]);
        injection Hin as <- <-; auto.
Qed.

(** X9.  [SignalProcs] signals nobody else and nothing else: a signal it
    sends is the requested one, and goes to an enumerated process whose
    name as [Name] returned it equals the target and which
    [FindProcess] found. *)
Theorem SignalProcs_signals_only_matches (host : Host) (target : string)
  (sig pid s : Z) :
  In (EvSignal pid s) (snd (SignalProcs host target sig)) ->
  s = sig /\
  In pid (fst (fst (pidsWithContext host))) /\
  resolvedName host pid = target /\
  FindProcess host pid = None.
Proof.
  destruct (pidsWithContext_events host) as [_ [_ Hnosig]].
  destruct (pidsWithContext host) as [[pids [e|]] evs] eqn:Henum.
  - rewrite (SignalProcs_not_enumerated host target sig e)
      by (rewrite Henum; reflexivity).
    rewrite Henum. cbn [snd]. intros Hin. destruct (Hnosig _ _ Hin).
  - rewrite (SignalProcs_enumerated host target sig pids)
      by (rewrite Henum; reflexivity).
    rewrite Henum. cbn [fst snd]. intros Hin.
    apply in_app_or in Hin as [Hin|Hin]; [destruct (Hnosig _ _ Hin)|].
    apply loop_events_visit in Hin as [q [Hq Hin]].
    apply visit_EvSignal in Hin as [-> [-> [Hm Hfound]]]. auto.
Qed.

Lemma visits_deliveries (host : Host) (target : string) (sig : Z)
  (pids : list Z) :
  (forall q, In q pids -> resolvedName host q = target ->
             deliver host q sig = None) ->
  filter isDelivery (flat_map (visit host target sig) pids)
  = flat_map (delivered sig) (filter (isMatch host target) pids).
Proof.
  induction pids as [|q pids IH]; intros Hok; [reflexivity|].
  cbn [flat_map filter]. rewrite filter_app.
  rewrite IH by (intros; apply Hok; [right|]; assumption).
  unfold visit at 1. rewrite filter_app.
  rewrite (reads_no_delivery _ (resolveEvents_reads host q)).
  unfold isMatch at 2.
  destruct (String.eqb_spec (resolvedName host q) target) as [Hm|_];
    [|reflexivity].
  destruct (deliver_success_signals host q sig
              (Hok q (or_introl eq_refl) Hm)) as [-> _].
  reflexivity.
Qed.

(** X8.  After a successful enumeration [SignalProcs] returns no error
    exactly when the delivery to every enumerated process whose name
    matches succeeds; and then its delivery events are, for each match in
    enumeration order, the lookup of the process followed by the
    signal. *)
Theorem SignalProcs_success_iff_all_delivered (host : Host)
  (target : string) (sig : Z) (pids : list Z) :
  fst (pidsWithContext host) = (pids, None) ->
  (fst (SignalProcs host target sig) = None <->
   forall pid, In pid pids -> resolvedName host pid = target ->
               deliver host pid sig = None) /\
  (fst (SignalProcs host target sig) = None ->
   filter isDelivery (snd (SignalProcs host target sig))
   = flat_map (delivered sig) (filter (isMatch host target) pids)).
Proof.
  intros Henum.
  rewrite (SignalProcs_enumerated host target sig pids Henum).
  cbn [fst snd].
  assert (Hall : fst (SignalProcs_loop host (map fresh pids) target sig)
                 = None ->
                 forall pid, In pid pids -> resolvedName host pid = target ->
                             deliver host pid sig = None)
    by apply loop_success.
  split; [split; [exact Hall|]|].
  - intros Hok. rewrite loop_complete by assumption. reflexivity.
  - intros Hnone. specialize (Hall Hnone).
    rewrite loop_complete by assumption. cbn [snd].
    rewrite filter_app.
    destruct (pidsWithContext_events host) as [_ [-> _]].
    apply visits_deliveries. assumption.
Qed.

Lemma pidsOfEntries_length (fnames : list string) :
  List.length (pidsOfEntries fnames)
  = List.length (filter isPidEntry fnames).
Proof.
  induction fnames as [|fname fnames IH]; [reflexivity|].
  cbn [pidsOfEntries filter]. unfold isPidEntry at 1.
  destruct (pidOfEntry fname); simpl; rewrite IH; reflexivity.
Qed.

(** X12.  [Processes] returns one handle for each entry that stands for a
    pid, also when several entries stand for the same pid: there are as
    many handles as such entries, and never more than entries. *)
Theorem Processes_one_handle_per_entry (host : Host)
  (fnames : list string) :
  Open host (hostProc host []) = None ->
  Readdirnames host (hostProc host []) = (fnames, None) ->
  List.length (fst (fst (Processes host)))
  = List.length (filter isPidEntry fnames) /\
  (List.length (fst (fst (Processes host))) <= List.length fnames)%nat.
Proof.
  intros Hopen Hlist.
  unfold Processes, ProcessesWithContext, pidsWithContext, readPidsFromDir,
    bind, perform.
  rewrite Hopen, Hlist. cbn [fst snd ret app].
  rewrite readPids_loop_spec. cbn [app].
  rewrite length_map, pidsOfEntries_length. split; [reflexivity|].
  apply filter_length_le.
Qed.

(** ** The further properties on the fixtures *)

Lemma SignalProcs_enumeration_failure_witness :
  (Open fxUnlistable (hostProc fxUnlistable []) = Some EPERM \/
   (Open fxUnlistable (hostProc fxUnlistable []) = None /\
    snd (Readdirnames fxUnlistable (hostProc fxUnlistable []))
    = Some EPERM)) /\
  fst (Processes fxUnlistable) = ([], Some EPERM) /\
  SignalProcs fxUnlistable "sleep" 15
  = (Some EPERM, [EvOpen "/proc"; EvReaddirnames "/proc"]).
Proof.
  assert (h : Open fxUnlistable (hostProc fxUnlistable []) = Some EPERM \/
              (Open fxUnlistable (hostProc fxUnlistable []) = None /\
               snd (Readdirnames fxUnlistable (hostProc fxUnlistable []))
               = Some EPERM))
    by (right; split; reflexivity).
  pose proof (SignalProcs_enumeration_failure fxUnlistable "sleep" 15
                EPERM h) as H.
  exact (conj h (conj (proj1 H) (proj1 (proj2 H)))).
Defined.

Lemma Processes_handles_unresolved_int32_witness :
  In (fresh 4711) (fst (fst (Processes fxSleepers))) /\
  name (fresh 4711) = "" /\ inInt32 (Pid (fresh 4711)).
Proof.
  assert (h : In (fresh 4711) (fst (fst (Processes fxSleepers))))
    by (right; right; left; reflexivity).
  exact (conj h
    (Processes_handles_unresolved_int32 fxSleepers (fresh 4711) h)).
Defined.

Lemma Processes_of_pid_names_witness :
  Forall inInt32 [1; 42; 4711]%Z /\
  Open fxSleepers (hostProc fxSleepers []) = None /\
  Readdirnames fxSleepers (hostProc fxSleepers [])
  = (map strconv.Itoa [1; 42; 4711]%Z, None) /\
  fst (Processes fxSleepers) = ([fresh 1; fresh 42; fresh 4711], None).
Proof.
  assert (h1 : Forall inInt32 [1; 42; 4711]%Z)
    by (repeat constructor; unfold inInt32; lia).
  assert (h2 : Open fxSleepers (hostProc fxSleepers []) = None)
    by reflexivity.
  assert (h3 : Readdirnames fxSleepers (hostProc fxSleepers [])
               = (map strconv.Itoa [1; 42; 4711]%Z, None)) by reflexivity.
  exact (conj h1 (conj h2 (conj h3
    (Processes_of_pid_names fxSleepers _ h1 h2 h3)))).
Defined.

Lemma Processes_one_handle_per_entry_witness :
  Open fxAliases (hostProc fxAliases []) = None /\
  Readdirnames fxAliases (hostProc fxAliases [])
  = (["7"; "+7"; "007"; "cpuinfo"], None) /\
  fst (Processes fxAliases) = ([fresh 7; fresh 7; fresh 7], None) /\
  List.length (fst (fst (Processes fxAliases))) = 3%nat.
Proof.
  assert (h1 : Open fxAliases (hostProc fxAliases []) = None)
    by reflexivity.
  assert (h2 : Readdirnames fxAliases (hostProc fxAliases [])
               = (["7"; "+7"; "007"; "cpuinfo"], None)) by reflexivity.
  exact (conj h1 (conj h2 (conj eq_refl
    (proj1 (Processes_one_handle_per_entry fxAliases _ h1 h2))))).
Defined.

Lemma Name_short_entries_last_decides_witness :
  name (fresh 7) = "" /\
  ReadFile fxTwoNames (statusPath fxTwoNames 7)
  = (("Name:" ++ TAB ++ "first" ++ LF ++
      "Name:" ++ TAB ++ " second " ++ LF)%string, None) /\
  Forall isShort ["first"; " second "] /\
  Name fxTwoNames (fresh 7)
  = ("second", None, mkProcess 7 "second", [EvReadFile "/proc/7/status"]).
Proof.
  assert (h1 : name (fresh 7) = "") by reflexivity.
  assert (h2 : ReadFile fxTwoNames (statusPath fxTwoNames 7)
               = (("Name:" ++ TAB ++ "first" ++ LF ++
                   "Name:" ++ TAB ++ " second " ++ LF)%string, None))
    by reflexivity.
  assert (h3 : Forall isShort ["first"; " second "])
    by (repeat constructor; unfold isShort; vm_compute; lia).
  exact (conj h1 (conj h2 (conj h3
    (Name_short_entries_last_decides fxTwoNames (fresh 7) _ h1 h2 h3)))).
Defined.

Lemma Name_unreadable_status_not_cached_witness :
  name (fresh 1) = "" /\
  ReadFile fxVanished (statusPath fxVanished 1) = ("", Some ENOENT) /\
  forall k : nat,
    Name_repeat fxVanished k (fresh 1)
    = (repeat ("", Some ENOENT) k, fresh 1,
        repeat (EvReadFile "/proc/1/status") k).
Proof.
  assert (h1 : name (fresh 1) = "") by reflexivity.
  assert (h2 : ReadFile fxVanished (statusPath fxVanished 1)
               = ("", Some ENOENT)) by reflexivity.
  exact (conj h1 (conj h2
    (Name_unreadable_status_not_cached fxVanished (fresh 1) _ _ h1 h2))).
Defined.

Lemma Name_result_consistent_witness :
  snd (fst (fst (Name fxVanished (fresh 1)))) <> None /\
  fst (fst (fst (Name fxVanished (fresh 1)))) = "" /\
  name (fresh 1) = "".
Proof.
  assert (h : snd (fst (fst (Name fxVanished (fresh 1)))) <> None)
    by discriminate.
  exact (conj h (proj2 (Name_result_consistent fxVanished (fresh 1)) h)).
Defined.

Lemma CmdlineSlice_round_trip_witness :
  ReadFile fxExtended (cmdlinePath fxExtended 7)
  = (("/usr/bin/averylongprocessname-extended" ++ NULs ++
      "--flag" ++ NULs)%string, None) /\
  ("/usr/bin/averylongprocessname-extended" ++ NULs ++
   "--flag" ++ NULs)%string <> "" /\
  String.concat NULs (fst (fst (CmdlineSlice fxExtended (fresh 7))))
  = ("/usr/bin/averylongprocessname-extended" ++ NULs ++ "--flag")%string.
Proof.
  assert (h1 : ReadFile fxExtended (cmdlinePath fxExtended 7)
               = (("/usr/bin/averylongprocessname-extended" ++ NULs ++
                   "--flag" ++ NULs)%string, None)) by reflexivity.
  assert (h2 : ("/usr/bin/averylongprocessname-extended" ++ NULs ++
                "--flag" ++ NULs)%string <> "") by discriminate.
  exact (conj h1 (conj h2
    (proj1 (proj2 (proj2
       (CmdlineSlice_round_trip fxExtended (fresh 7) _ h1 h2)))))).
Defined.

Lemma SignalProcs_signals_only_matches_witness :
  In (EvSignal 4711 15) (snd (SignalProcs fxSleepers "sleep" 15)) /\
  15%Z = 15%Z /\
  In 4711%Z (fst (fst (pidsWithContext fxSleepers))) /\
  resolvedName fxSleepers 4711 = "sleep" /\
  FindProcess fxSleepers 4711 = None.
Proof.
  assert (h : In (EvSignal 4711 15)
                (snd (SignalProcs fxSleepers "sleep" 15)))
    by (vm_compute; intuition).
  exact (conj h
    (SignalProcs_signals_only_matches fxSleepers "sleep" 15 4711 15 h)).
Defined.

Lemma SignalProcs_success_iff_all_delivered_witness :
  fst (pidsWithContext fxSleepers) = ([1; 42; 4711]%Z, None) /\
  fst (SignalProcs fxSleepers "sleep" 15) = None /\
  filter isDelivery (snd (SignalProcs fxSleepers "sleep" 15))
  = [EvFindProcess 1; EvSignal 1 15; EvFindProcess 4711; EvSignal 4711 15].
Proof.
  assert (h1 : fst (pidsWithContext fxSleepers) = ([1; 42; 4711]%Z, None))
    by reflexivity.
  exact (conj h1 (conj eq_refl
    (proj2 (SignalProcs_success_iff_all_delivered fxSleepers "sleep" 15 _
              h1) eq_refl))).
Defined.

(** ** A short [Name] line among several *)

Lemma nameEntries_app (lines1 lines2 : list string) :
  nameEntries (lines1 ++ lines2) = nameEntries lines1 ++ nameEntries lines2.
Proof.
  induction lines1 as [|line lines1 IH]; [reflexivity|].
  cbn [app nameEntries]. destruct (nameEntry line); rewrite IH; reflexivity.
Qed.

(** C7: the claim fails.  The status record of process 7 contains a line
    keyed [Name] with the value [first], of 5 bytes; a later line keyed
    [Name] has a value of 20 bytes, so the cmdline record is read and the
    name returned is its first argument. *)
Lemma Name_short_line_overridden :
  fst (ReadFile fxShortThenLong (statusPath fxShortThenLong 7))
  = ("Name:" ++ TAB ++ "first" ++ LF ++
     "Name:" ++ TAB ++ longName ++ LF)%string /\
  In ("Name:" ++ TAB ++ "first")%string
    (strings.Split
       (fst (ReadFile fxShortThenLong (statusPath fxShortThenLong 7)))
       "010") /\
  nameEntry ("Name:" ++ TAB ++ "first")%string = Some "first" /\
  (String.length "first" < 15)%nat /\
  Name fxShortThenLong (fresh 7)
  = ("/opt/tool/run.sh", None, mkProcess 7 "/opt/tool/run.sh",
      [EvReadFile "/proc/7/status"; EvReadFile "/proc/7/cmdline"]) /\
  fst (fst (fst (Name fxShortThenLong (fresh 7))))
  <> strings.Trim "first" spaceTab.
Proof.
  split; [reflexivity|]. split; [left; reflexivity|].
  split; [reflexivity|]. split; [simpl; lia|].
  split; [reflexivity | discriminate].
Qed.

(** C7, as amended.  When the status record contains a line keyed [Name]
    (the key is the text before the first tab, with its trailing colons
    stripped) with a value [short] of fewer than 15 bytes, no later line
    is keyed [Name], and every earlier line keyed [Name] has a trimmed
    value of fewer than 15 bytes, name resolution returns [short] trimmed
    of surrounding spaces and tabs, and the only event is the read of the
    status record: the cmdline record is not read. *)
Theorem Name_short_last_status_name (host : Host) (p : Process)
  (contents : string) (pre : list string) (line : string)
  (post : list string) (short : string) :
  name p = "" ->
  ReadFile host (statusPath host (Pid p)) = (contents, None) ->
  strings.Split contents "010" = pre ++ line :: post ->
  nameEntry line = Some short ->
  (String.length short < 15)%nat ->
  Forall isShort (nameEntries pre) ->
  nameEntries post = [] ->
  Name host p =
  (strings.Trim short spaceTab, None,
    setName p (strings.Trim short spaceTab),
    [EvReadFile (statusPath host (Pid p))]).
Proof.
  intros Hfresh Hread Hlines Hline Hshort Hpre Hpost.
  assert (Hentries : nameEntries (strings.Split contents "010")
                     = nameEntries pre ++ [short]).
  { rewrite Hlines, nameEntries_app. cbn [nameEntries].
    rewrite Hline, Hpost. reflexivity. }
  assert (Hall : Forall isShort (nameEntries (strings.Split contents "010"))).
  { rewrite Hentries. apply Forall_app. split; [exact Hpre|].
    constructor; [|constructor]. unfold isShort.
    pose proof (candidate_length short). lia. }
  unfold Name, NameWithContext. rewrite Hfresh. cbn [String.eqb].
  fold (statusPath host (Pid p)). unfold bind at 1, perform.
  rewrite Hread. rewrite (Name_loop_short host _ Hall).
  rewrite Hentries, map_app. cbn [map]. rewrite last_last.
  reflexivity.
Qed.

Lemma Name_short_last_status_name_witness :
  name (fresh 7) = "" /\
  ReadFile fxTwoNames (statusPath fxTwoNames 7)
  = (("Name:" ++ TAB ++ "first" ++ LF ++
      "Name:" ++ TAB ++ " second " ++ LF)%string, None) /\
  strings.Split
    ("Name:" ++ TAB ++ "first" ++ LF ++
     "Name:" ++ TAB ++ " second " ++ LF)%string "010"
  = [("Name:" ++ TAB ++ "first")%string] ++
    ("Name:" ++ TAB ++ " second ")%string :: [""] /\
  nameEntry ("Name:" ++ TAB ++ " second ")%string = Some " second " /\
  (String.length " second " < 15)%nat /\
  Forall isShort (nameEntries [("Name:" ++ TAB ++ "first")%string]) /\
  nameEntries [""] = [] /\
  Name fxTwoNames (fresh 7)
  = ("second", None, mkProcess 7 "second", [EvReadFile "/proc/7/status"]).
Proof.
  assert (h1 : name (fresh 7) = "") by reflexivity.
  assert (h2 : ReadFile fxTwoNames (statusPath fxTwoNames 7)
               = (("Name:" ++ TAB ++ "first" ++ LF ++
                   "Name:" ++ TAB ++ " second " ++ LF)%string, None))
    by reflexivity.
  assert (h3 : strings.Split
                 ("Name:" ++ TAB ++ "first" ++ LF ++
                  "Name:" ++ TAB ++ " second " ++ LF)%string "010"
               = [("Name:" ++ TAB ++ "first")%string] ++
                 ("Name:" ++ TAB ++ " second ")%string :: [""])
    by reflexivity.
  assert (h4 : nameEntry ("Name:" ++ TAB ++ " second ")%string
               = Some " second ") by reflexivity.
  assert (h5 : (String.length " second " < 15)%nat) by (simpl; lia).
  assert (h6 : Forall isShort
                 (nameEntries [("Name:" ++ TAB ++ "first")%string]))
    by (repeat constructor; unfold isShort; vm_compute; lia).
  assert (h7 : nameEntries [""] = []) by reflexivity.
  exact (conj h1 (conj h2 (conj h3 (conj h4 (conj h5 (conj h6 (conj h7
    (Name_short_last_status_name fxTwoNames (fresh 7) _ _ _ _ _
       h1 h2 h3 h4 h5 h6 h7)))))))).
Defined.
